(** * tf2_ros::TransformListener

    A shallow embedding of [tf2_ros/include/tf2_ros/transform_listener.h]:
    the default subscription options, the listener object, its constructor
    and [init], over an explicit model of the state that the calls made by
    [init] act on (callback groups, subscriptions, executors, threads and
    the transform buffer).  Every primitive appends the call it stands for
    to a trace, so that the order of the calls can be stated. *)

From stdpp Require Import base relations list strings.
From Stdlib Require Import ZArith Lia.

Local Open Scope string_scope.
Local Open Scope list_scope.

(* ===================================================================== *)
(** ** Messages *)
(* ===================================================================== *)

(** Modelled from the spec: the message types are declared outside this
    header.  A TransformAnnouncement is one transform from a child frame to
    its parent frame ([frame_id]), with a stamp (nanoseconds) and an
    authority.  The rotation and translation are floating point and play no
    role in the listener; they are left out. *)
Record TransformAnnouncement : Type := mkTransformAnnouncement {
  frame_id : string;
  child_frame_id : string;
  stamp : Z;
  authority : string
}.

(** [tf2_msgs::msg::TFMessage]: the announcements of one batch, in arrival
    order. *)
Definition TFMessage : Type := list TransformAnnouncement.

(* ===================================================================== *)
(** ** The rclcpp types named by the header *)
(* ===================================================================== *)

Module rclcpp.

(** [rclcpp::QosPolicyKind], every enumerator. *)
Inductive QosPolicyKind : Type :=
| AvoidRosNamespaceConventions
| Deadline
| Depth
| Durability
| History
| Lifespan
| Liveliness
| LivelinessLeaseDuration
| Reliability
| Invalid.

(** [rclcpp::IntraProcessSetting]. *)
Inductive IntraProcessSetting : Type :=
| Disable
| Enable
| NodeDefault.

(** [rclcpp::CallbackGroupType]. *)
Inductive CallbackGroupType : Type :=
| MutuallyExclusive
| Reentrant.

(** [rclcpp::QoS], as far as a profile is carried around here. *)
Record QoS : Type := mkQoS {
  qos_depth : nat;
  qos_reliable : bool;
  qos_transient_local : bool
}.

(** [rclcpp::SubscriptionOptionsWithAllocator]: the three members the
    header writes.  A callback group is a shared pointer in the source; it
    is the index of the group in the node here, [None] for [nullptr]. *)
Record SubscriptionOptions : Type := mkSubscriptionOptions {
  qos_overriding_options : list QosPolicyKind;
  use_intra_process_comm : IntraProcessSetting;
  callback_group : option nat
}.

(** A default-constructed options object: no overridable policy, the
    node's intra-process setting, no callback group. *)
Definition SubscriptionOptions_default : SubscriptionOptions :=
  {| qos_overriding_options := [];
     use_intra_process_comm := NodeDefault;
     callback_group := None |}.

Definition with_qos_overriding_options
    (ks : list QosPolicyKind) (o : SubscriptionOptions) : SubscriptionOptions :=
  {| qos_overriding_options := ks;
     use_intra_process_comm := use_intra_process_comm o;
     callback_group := callback_group o |}.

Definition with_use_intra_process_comm
    (s : IntraProcessSetting) (o : SubscriptionOptions) : SubscriptionOptions :=
  {| qos_overriding_options := qos_overriding_options o;
     use_intra_process_comm := s;
     callback_group := callback_group o |}.

Definition with_callback_group
    (g : option nat) (o : SubscriptionOptions) : SubscriptionOptions :=
  {| qos_overriding_options := qos_overriding_options o;
     use_intra_process_comm := use_intra_process_comm o;
     callback_group := g |}.

Definition QosPolicyKind_eqb (a b : QosPolicyKind) : bool :=
  match a, b with
  | AvoidRosNamespaceConventions, AvoidRosNamespaceConventions
  | Deadline, Deadline
  | Depth, Depth
  | Durability, Durability
  | History, History
  | Lifespan, Lifespan
  | Liveliness, Liveliness
  | LivelinessLeaseDuration, LivelinessLeaseDuration
  | Reliability, Reliability
  | Invalid, Invalid => true
  | _, _ => false
  end.

(** Whether the options allow a policy to be overridden by a parameter. *)
Definition overridable (k : QosPolicyKind) (o : SubscriptionOptions) : bool :=
  existsb (QosPolicyKind_eqb k) (qos_overriding_options o).

End rclcpp.
Import rclcpp.

(* ===================================================================== *)
(** ** detail: the default subscription options (lines 54-93) *)
(* ===================================================================== *)

Module detail.

Definition get_default_transform_listener_sub_options : SubscriptionOptions :=
  let options := SubscriptionOptions_default in
  let options :=
    with_qos_overriding_options [Depth; Durability; History; Reliability] options in
  let options := with_use_intra_process_comm Disable options in
  options.

Definition get_default_transform_listener_static_sub_options : SubscriptionOptions :=
  let options := SubscriptionOptions_default in
  let options :=
    with_qos_overriding_options [Depth; History; Reliability] options in
  let options := with_use_intra_process_comm Disable options in
  options.

End detail.

(* ===================================================================== *)
(** ** tf2: the buffer the listener writes into *)
(* ===================================================================== *)

Module tf2.

Inductive InsertResult : Type :=
| InsertOk
| InsertError (reason : string).

Definition is_ok (r : InsertResult) : bool :=
  match r with InsertOk => true | InsertError _ => false end.

(** Modelled from the spec: the buffer ([tf2::BufferCore], declared in
    tf2/buffer_core.h, which is not part of the sources at hand) is an
    external collaborator that exposes
    [insertTransform(announcement, isStatic) -> Ok | Error(reason)] and
    [setUsingDedicatedThread(bool)], and holds a dedicated-thread flag.
    The two laws say that the flag is what was last set, and that an
    insertion does not touch it. *)
Class BufferAdapter (B : Type) : Type := {
  insertTransform : TransformAnnouncement -> bool -> B -> InsertResult * B;
  setUsingDedicatedThread : bool -> B -> B;
  isUsingDedicatedThread : B -> bool;
  flag_after_set :
    forall v b, isUsingDedicatedThread (setUsingDedicatedThread v b) = v;
  flag_after_insert :
    forall a st b,
      isUsingDedicatedThread (snd (insertTransform a st b)) =
      isUsingDedicatedThread b
}.

(** Modelled from the spec: a buffer that stores what was inserted and
    rejects what the spec calls malformed ("malformed frame identifiers,
    self-parenting a frame to itself").  It is the instance the listener
    is run on in the examples. *)
Record BufferCore : Type := mkBufferCore {
  using_dedicated_thread_ : bool;
  frames_ : list (TransformAnnouncement * bool)
}.

Definition malformed (a : TransformAnnouncement) : bool :=
  String.eqb (frame_id a) ""
  || String.eqb (child_frame_id a) ""
  || String.eqb (child_frame_id a) (frame_id a).

Definition BufferCore_insertTransform
    (a : TransformAnnouncement) (is_static : bool) (b : BufferCore)
    : InsertResult * BufferCore :=
  if malformed a then (InsertError "invalid frame", b)
  else (InsertOk,
        {| using_dedicated_thread_ := using_dedicated_thread_ b;
           frames_ := frames_ b ++ [(a, is_static)] |}).

Definition BufferCore_setUsingDedicatedThread (v : bool) (b : BufferCore) : BufferCore :=
  {| using_dedicated_thread_ := v; frames_ := frames_ b |}.

(** A freshly constructed buffer: no dedicated thread, nothing stored. *)
Definition BufferCore_new : BufferCore :=
  {| using_dedicated_thread_ := false; frames_ := [] |}.

#[export] Instance BufferCore_adapter : BufferAdapter BufferCore :=
  {| insertTransform := BufferCore_insertTransform;
     setUsingDedicatedThread := BufferCore_setUsingDedicatedThread;
     isUsingDedicatedThread := using_dedicated_thread_;
     flag_after_set := fun v b => eq_refl;
     flag_after_insert := fun a st b =>
       match malformed a as m
         return using_dedicated_thread_
                  (snd (if m then (InsertError "invalid frame", b)
                        else (InsertOk,
                              {| using_dedicated_thread_ := using_dedicated_thread_ b;
                                 frames_ := frames_ b ++ [(a, st)] |})))
                = using_dedicated_thread_ b
       with
       | true => eq_refl
       | false => eq_refl
       end |}.

End tf2.
Import tf2.

(* ===================================================================== *)
(** ** The state the listener acts on *)
(* ===================================================================== *)

(** The middleware (rclcpp) and the thread library are outside the
    repository.  Their objects are modelled by what the calls of the header
    do to them: a callback group has its subscriptions, an executor its
    callback groups, a thread its body. *)

(** [std::bind(&TransformListener::subscription_callback, this, _1, flag)]:
    the only closures the header builds for a subscription are these, so a
    callback is represented by the flag it has bound (lines 186-189). *)
Inductive Callback : Type :=
| bind_subscription_callback (is_static : bool).

(** The body of the background thread, [[&]() {executor_->spin();}]
    (line 214), with the executor it refers to. *)
Inductive ThreadBody : Type :=
| spin_executor (e : nat).

Record CallbackGroup : Type := mkCallbackGroup {
  cg_type : CallbackGroupType;
  cg_automatically_add_to_executor_with_node : bool;
  cg_subscriptions : list nat
}.

Record Subscription : Type := mkSubscription {
  sub_topic : string;
  sub_qos : QoS;
  sub_callback : Callback;
  sub_options : SubscriptionOptions
}.

Record Executor : Type := mkExecutor {
  ex_callback_groups : list nat;
  ex_cancelled : bool
}.

Record Thread : Type := mkThread {
  th_body : ThreadBody;
  th_finished : bool;
  th_joined : bool
}.

(** What the environment refuses: the topics that cannot be bound, and
    whether a thread can be started. *)
Record Faults : Type := mkFaults {
  bind_fails : string -> bool;
  thread_start_fails : bool
}.

Definition no_faults : Faults :=
  {| bind_fails := fun _ => false; thread_start_fails := false |}.

(** The calls the listener makes, in the order it makes them. *)
Inductive Event : Type :=
| EvCreateCallbackGroup (g : nat) (ty : CallbackGroupType) (auto_add : bool)
| EvCreateSubscription (s : nat) (topic : string) (cb : Callback) (group : option nat)
| EvMakeExecutor (e : nat)
| EvAddCallbackGroup (e g : nat)
| EvThreadStart (t : nat) (body : ThreadBody)
| EvSetUsingDedicatedThread (v : bool)
| EvInsertTransform (a : TransformAnnouncement) (is_static : bool) (r : InsertResult)
| EvLogError (a : TransformAnnouncement) (reason : string)
| EvCancel (e : nat)
| EvThreadExit (t : nat)
| EvJoin (t : nat).

(** What [init] can throw. *)
Inductive Exception : Type :=
| RCLError (topic : string)       (* the subscription could not be created *)
| GroupNotInNode                  (* "Cannot create subscription, group not in node." *)
| system_error.                   (* std::thread could not be started *)

Section World.

Context {B : Type} `{BA : BufferAdapter B}.

(** One node (the one whose interfaces are handed to the constructor)
    with its callback groups and subscriptions, the executors and threads
    of the process, and the buffer the listener refers to.  Groups,
    subscriptions, executors and threads are named by their index. *)
Record World : Type := mkWorld {
  w_buffer : B;
  w_groups : list CallbackGroup;
  w_subscriptions : list Subscription;
  w_executors : list Executor;
  w_threads : list Thread;
  w_faults : Faults;
  w_trace : list Event
}.

Definition set_buffer (b : B) (w : World) : World :=
  {| w_buffer := b; w_groups := w_groups w;
     w_subscriptions := w_subscriptions w; w_executors := w_executors w;
     w_threads := w_threads w; w_faults := w_faults w; w_trace := w_trace w |}.

Definition set_groups (gs : list CallbackGroup) (w : World) : World :=
  {| w_buffer := w_buffer w; w_groups := gs;
     w_subscriptions := w_subscriptions w; w_executors := w_executors w;
     w_threads := w_threads w; w_faults := w_faults w; w_trace := w_trace w |}.

Definition set_subscriptions (ss : list Subscription) (w : World) : World :=
  {| w_buffer := w_buffer w; w_groups := w_groups w;
     w_subscriptions := ss; w_executors := w_executors w;
     w_threads := w_threads w; w_faults := w_faults w; w_trace := w_trace w |}.

Definition set_executors (es : list Executor) (w : World) : World :=
  {| w_buffer := w_buffer w; w_groups := w_groups w;
     w_subscriptions := w_subscriptions w; w_executors := es;
     w_threads := w_threads w; w_faults := w_faults w; w_trace := w_trace w |}.

Definition set_threads (ts : list Thread) (w : World) : World :=
  {| w_buffer := w_buffer w; w_groups := w_groups w;
     w_subscriptions := w_subscriptions w; w_executors := w_executors w;
     w_threads := ts; w_faults := w_faults w; w_trace := w_trace w |}.

Definition log (ev : Event) (w : World) : World :=
  {| w_buffer := w_buffer w; w_groups := w_groups w;
     w_subscriptions := w_subscriptions w; w_executors := w_executors w;
     w_threads := w_threads w; w_faults := w_faults w;
     w_trace := w_trace w ++ [ev] |}.

(** *** State and exceptions *)

Inductive outcome (A : Type) : Type :=
| Returned (a : A) (w : World)
| Thrown (e : Exception) (w : World).
Arguments Returned {A} a w.
Arguments Thrown {A} e w.

Definition M (A : Type) : Type := World -> outcome A.

Definition ret {A : Type} (a : A) : M A := fun w => Returned a w.

Definition bind {A C : Type} (m : M A) (k : A -> M C) : M C :=
  fun w =>
    match m w with
    | Returned a w' => k a w'
    | Thrown e w' => Thrown e w'
    end.

Definition throw {A : Type} (e : Exception) : M A := fun w => Thrown e w.

End World.

Arguments World B : clear implicits.
Arguments outcome B A : clear implicits.
Arguments M B A : clear implicits.
Arguments Returned {B A} a w.
Arguments Thrown {B A} e w.

Declare Scope listener_scope.
Delimit Scope listener_scope with listener.
Notation "'let*' x ':=' m 'in' k" := (bind m (fun x => k))
  (at level 10, x name, m at level 100, k at level 200)
  : listener_scope.
Local Open Scope listener_scope.

(* ===================================================================== *)
(** ** The listener object *)
(* ===================================================================== *)

(** A node interface is named by the node it belongs to. *)
Definition NodeHandle : Type := nat.

(** The data members (lines 233-246).  [buffer_] is a reference to the
    buffer of the [World]; [last_update_] is a wall-clock time and is left
    out.  Shared and unique pointers are [option]s of indices. *)
Record TransformListener : Type := mkTransformListener {
  spin_thread_ : bool;
  dedicated_listener_thread_ : option nat;
  executor_ : option nat;
  optional_default_node_ : option NodeHandle;
  message_subscription_tf_ : option nat;
  message_subscription_tf_static_ : option nat;
  node_logging_interface_ : option NodeHandle;
  node_base_interface_ : option NodeHandle;
  callback_group_ : option nat
}.

(** The default member initialisers: [false] and [nullptr] throughout. *)
Definition TransformListener_members : TransformListener :=
  {| spin_thread_ := false;
     dedicated_listener_thread_ := None;
     executor_ := None;
     optional_default_node_ := None;
     message_subscription_tf_ := None;
     message_subscription_tf_static_ := None;
     node_logging_interface_ := None;
     node_base_interface_ := None;
     callback_group_ := None |}.

Definition set_spin_thread_ (v : bool) (l : TransformListener) : TransformListener :=
  {| spin_thread_ := v;
     dedicated_listener_thread_ := dedicated_listener_thread_ l;
     executor_ := executor_ l;
     optional_default_node_ := optional_default_node_ l;
     message_subscription_tf_ := message_subscription_tf_ l;
     message_subscription_tf_static_ := message_subscription_tf_static_ l;
     node_logging_interface_ := node_logging_interface_ l;
     node_base_interface_ := node_base_interface_ l;
     callback_group_ := callback_group_ l |}.

Definition set_dedicated_listener_thread_ (v : option nat) (l : TransformListener)
    : TransformListener :=
  {| spin_thread_ := spin_thread_ l;
     dedicated_listener_thread_ := v;
     executor_ := executor_ l;
     optional_default_node_ := optional_default_node_ l;
     message_subscription_tf_ := message_subscription_tf_ l;
     message_subscription_tf_static_ := message_subscription_tf_static_ l;
     node_logging_interface_ := node_logging_interface_ l;
     node_base_interface_ := node_base_interface_ l;
     callback_group_ := callback_group_ l |}.

Definition set_executor_ (v : option nat) (l : TransformListener) : TransformListener :=
  {| spin_thread_ := spin_thread_ l;
     dedicated_listener_thread_ := dedicated_listener_thread_ l;
     executor_ := v;
     optional_default_node_ := optional_default_node_ l;
     message_subscription_tf_ := message_subscription_tf_ l;
     message_subscription_tf_static_ := message_subscription_tf_static_ l;
     node_logging_interface_ := node_logging_interface_ l;
     node_base_interface_ := node_base_interface_ l;
     callback_group_ := callback_group_ l |}.

Definition set_message_subscription_tf_ (v : option nat) (l : TransformListener)
    : TransformListener :=
  {| spin_thread_ := spin_thread_ l;
     dedicated_listener_thread_ := dedicated_listener_thread_ l;
     executor_ := executor_ l;
     optional_default_node_ := optional_default_node_ l;
     message_subscription_tf_ := v;
     message_subscription_tf_static_ := message_subscription_tf_static_ l;
     node_logging_interface_ := node_logging_interface_ l;
     node_base_interface_ := node_base_interface_ l;
     callback_group_ := callback_group_ l |}.

Definition set_message_subscription_tf_static_ (v : option nat) (l : TransformListener)
    : TransformListener :=
  {| spin_thread_ := spin_thread_ l;
     dedicated_listener_thread_ := dedicated_listener_thread_ l;
     executor_ := executor_ l;
     optional_default_node_ := optional_default_node_ l;
     message_subscription_tf_ := message_subscription_tf_ l;
     message_subscription_tf_static_ := v;
     node_logging_interface_ := node_logging_interface_ l;
     node_base_interface_ := node_base_interface_ l;
     callback_group_ := callback_group_ l |}.

Definition set_node_logging_interface_ (v : option NodeHandle) (l : TransformListener)
    : TransformListener :=
  {| spin_thread_ := spin_thread_ l;
     dedicated_listener_thread_ := dedicated_listener_thread_ l;
     executor_ := executor_ l;
     optional_default_node_ := optional_default_node_ l;
     message_subscription_tf_ := message_subscription_tf_ l;
     message_subscription_tf_static_ := message_subscription_tf_static_ l;
     node_logging_interface_ := v;
     node_base_interface_ := node_base_interface_ l;
     callback_group_ := callback_group_ l |}.

Definition set_node_base_interface_ (v : option NodeHandle) (l : TransformListener)
    : TransformListener :=
  {| spin_thread_ := spin_thread_ l;
     dedicated_listener_thread_ := dedicated_listener_thread_ l;
     executor_ := executor_ l;
     optional_default_node_ := optional_default_node_ l;
     message_subscription_tf_ := message_subscription_tf_ l;
     message_subscription_tf_static_ := message_subscription_tf_static_ l;
     node_logging_interface_ := node_logging_interface_ l;
     node_base_interface_ := v;
     callback_group_ := callback_group_ l |}.

Definition set_callback_group_ (v : option nat) (l : TransformListener) : TransformListener :=
  {| spin_thread_ := spin_thread_ l;
     dedicated_listener_thread_ := dedicated_listener_thread_ l;
     executor_ := executor_ l;
     optional_default_node_ := optional_default_node_ l;
     message_subscription_tf_ := message_subscription_tf_ l;
     message_subscription_tf_static_ := message_subscription_tf_static_ l;
     node_logging_interface_ := node_logging_interface_ l;
     node_base_interface_ := node_base_interface_ l;
     callback_group_ := v |}.

Section Listener.

Context {B : Type} `{BA : BufferAdapter B}.

(* ------------------------------------------------------------------- *)
(** *** The calls [init] makes *)
(* ------------------------------------------------------------------- *)

(** [node_base->create_callback_group(type, automatically_add)]: a new,
    empty group of the node. *)
Definition create_callback_group
    (node_base : NodeHandle) (ty : CallbackGroupType) (auto_add : bool) : M B nat :=
  fun w =>
    let g := length (w_groups w) in
    Returned g
      (log (EvCreateCallbackGroup g ty auto_add)
         (set_groups
            (w_groups w ++
             [{| cg_type := ty;
                 cg_automatically_add_to_executor_with_node := auto_add;
                 cg_subscriptions := [] |}]) w)).

(** [rclcpp::create_subscription<TFMessage>(node_parameters, node_topics,
    topic, qos, callback, options)].  It throws when the topic cannot be
    bound, and when the group of the options is not a group of the node;
    otherwise the subscription joins that group, or the node's default
    group (index 0) when the options name none. *)
Definition create_subscription
    (node_parameters node_topics : NodeHandle) (topic : string) (qos : QoS)
    (cb : Callback) (options : SubscriptionOptions) : M B nat :=
  fun w =>
    if bind_fails (w_faults w) topic then Thrown (RCLError topic) w
    else
      let s := length (w_subscriptions w) in
      let g := default 0 (callback_group options) in
      match w_groups w !! g with
      | None => Thrown GroupNotInNode w
      | Some cg =>
          let cg' :=
            {| cg_type := cg_type cg;
               cg_automatically_add_to_executor_with_node :=
                 cg_automatically_add_to_executor_with_node cg;
               cg_subscriptions := cg_subscriptions cg ++ [s] |} in
          Returned s
            (log (EvCreateSubscription s topic cb (callback_group options))
               (set_groups (<[g := cg']> (w_groups w))
                  (set_subscriptions
                     (w_subscriptions w ++
                      [{| sub_topic := topic; sub_qos := qos;
                          sub_callback := cb; sub_options := options |}]) w)))
      end.

(** [std::make_shared<rclcpp::executors::SingleThreadedExecutor>()]. *)
Definition make_SingleThreadedExecutor : M B nat :=
  fun w =>
    let e := length (w_executors w) in
    Returned e
      (log (EvMakeExecutor e)
         (set_executors
            (w_executors w ++
             [{| ex_callback_groups := []; ex_cancelled := false |}]) w)).

(** [executor->add_callback_group(group, node_base)]. *)
Definition add_callback_group (e g : nat) (node_base : NodeHandle) : M B unit :=
  fun w =>
    Returned tt
      (log (EvAddCallbackGroup e g)
         (set_executors
            (alter
               (fun ex => {| ex_callback_groups := ex_callback_groups ex ++ [g];
                             ex_cancelled := ex_cancelled ex |})
               e (w_executors w)) w)).

(** [std::make_unique<std::thread>(body)]: the thread runs from the moment
    it is constructed; the constructor throws when none can be started.
    The call itself records the thread; what the thread does while the
    constructing thread goes on is a step of [cstep] (before the constructor
    returns) or of [lstep] (after it). *)
Definition make_thread (body : ThreadBody) : M B nat :=
  fun w =>
    if thread_start_fails (w_faults w) then Thrown system_error w
    else
      let t := length (w_threads w) in
      Returned t
        (log (EvThreadStart t body)
           (set_threads
              (w_threads w ++
               [{| th_body := body; th_finished := false; th_joined := false |}]) w)).

(** [buffer_.setUsingDedicatedThread(v)]. *)
Definition buffer_setUsingDedicatedThread (v : bool) : M B unit :=
  fun w =>
    Returned tt
      (log (EvSetUsingDedicatedThread v)
         (set_buffer (setUsingDedicatedThread v (w_buffer w)) w)).

(** [buffer_.insertTransform(a, is_static)], with its result. *)
Definition buffer_insertTransform
    (a : TransformAnnouncement) (is_static : bool) : M B InsertResult :=
  fun w =>
    let rb := insertTransform a is_static (w_buffer w) in
    Returned (fst rb)
      (log (EvInsertTransform a is_static (fst rb)) (set_buffer (snd rb) w)).

(** A diagnostic through the logging interface. *)
Definition log_error (a : TransformAnnouncement) (reason : string) : M B unit :=
  fun w => Returned tt (log (EvLogError a reason) w).

(* ------------------------------------------------------------------- *)
(** *** subscription_callback (declared at line 231) *)
(* ------------------------------------------------------------------- *)

(** Modelled from the spec: the body of
    [TransformListener::subscription_callback(msg, is_static)] is in
    transform_listener.cpp, of which only the declaration is at hand.  The
    spec's [onBatch(message, isStatic)]: for each announcement in the
    message, call [insertTransform(announcement, isStatic)]; on a failure
    result, log and continue with the remaining entries.  (The wall-clock
    time of the last batch, kept for diagnostics, is not modelled.) *)
Fixpoint subscription_callback (msg : TFMessage) (is_static : bool) : M B unit :=
  match msg with
  | [] => ret tt
  | a :: rest =>
      let* r := buffer_insertTransform a is_static in
      let* _ :=
        match r with
        | InsertOk => ret tt
        | InsertError reason => log_error a reason
        end in
      subscription_callback rest is_static
  end.

(** Calling a callback object: the bound flag is passed on as it was
    bound, the message takes the place of the placeholder. *)
Definition invoke (cb : Callback) (msg : TFMessage) : M B unit :=
  match cb with
  | bind_subscription_callback is_static => subscription_callback msg is_static
  end.

(** The middleware hands a message to subscription [s]. *)
Definition deliver (s : nat) (msg : TFMessage) : M B unit :=
  fun w =>
    match w_subscriptions w !! s with
    | Some sub => invoke (sub_callback sub) msg w
    | None => Returned tt w
    end.

(* ------------------------------------------------------------------- *)
(** *** init (lines 168-228) and the constructor (lines 136-162) *)
(* ------------------------------------------------------------------- *)

Definition init
    (this : TransformListener)
    (node_base node_logging node_parameters node_topics : NodeHandle)
    (spin_thread : bool) (qos static_qos : QoS)
    (options static_options : SubscriptionOptions)
    (tf_ns : string) : M B TransformListener :=
  let this := set_spin_thread_ spin_thread this in
  let this := set_node_base_interface_ (Some node_base) this in
  let this := set_node_logging_interface_ (Some node_logging) this in
  let cb := bind_subscription_callback false in
  let static_cb := bind_subscription_callback true in
  if spin_thread_ this then
    (* Create new callback group for message_subscription of tf and tf_static *)
    let* g := create_callback_group node_base MutuallyExclusive false in
    let this := set_callback_group_ (Some g) this in
    (* Duplicate to modify option of subscription *)
    let tf_options := options in
    let tf_static_options := static_options in
    let tf_options := with_callback_group (callback_group_ this) tf_options in
    let tf_static_options :=
      with_callback_group (callback_group_ this) tf_static_options in
    let* s := create_subscription node_parameters node_topics
                (tf_ns +:+ "/tf") qos cb tf_options in
    let this := set_message_subscription_tf_ (Some s) this in
    let* s' := create_subscription node_parameters node_topics
                 (tf_ns +:+ "/tf_static") static_qos static_cb tf_static_options in
    let this := set_message_subscription_tf_static_ (Some s') this in
    (* Create executor with dedicated thread to spin. *)
    let* e := make_SingleThreadedExecutor in
    let this := set_executor_ (Some e) this in
    let* _ := add_callback_group e g node_base in
    let* t := make_thread (spin_executor e) in
    let this := set_dedicated_listener_thread_ (Some t) this in
    (* Tell the buffer we have a dedicated thread to enable timeouts *)
    let* _ := buffer_setUsingDedicatedThread true in
    ret this
  else
    let* s := create_subscription node_parameters node_topics
                (tf_ns +:+ "/tf") qos cb options in
    let this := set_message_subscription_tf_ (Some s) this in
    let* s' := create_subscription node_parameters node_topics
                 (tf_ns +:+ "/tf_static") static_qos static_cb static_options in
    let this := set_message_subscription_tf_static_ (Some s') this in
    ret this.

(** The node interface constructor.  It leaves [tf_ns] at its default,
    the empty string.  A constructor that throws yields no object. *)
Definition TransformListener_ctor
    (node_base node_logging node_parameters node_topics : NodeHandle)
    (spin_thread : bool) (qos static_qos : QoS)
    (options static_options : SubscriptionOptions) : M B TransformListener :=
  init TransformListener_members
    node_base node_logging node_parameters node_topics
    spin_thread qos static_qos options static_options "".

(** The node constructor (lines 110-133): it hands the four interfaces of
    the node to the node interface constructor. *)
Definition TransformListener_ctor_node
    (node : NodeHandle)
    (spin_thread : bool) (qos static_qos : QoS)
    (options static_options : SubscriptionOptions) : M B TransformListener :=
  TransformListener_ctor node node node node
    spin_thread qos static_qos options static_options.

(** The constructor with the default arguments of the header for
    [spin_thread] and for the two option objects. *)
Definition TransformListener_ctor_default
    (node_base node_logging node_parameters node_topics : NodeHandle)
    (qos static_qos : QoS) : M B TransformListener :=
  TransformListener_ctor
    node_base node_logging node_parameters node_topics
    true qos static_qos
    detail.get_default_transform_listener_sub_options
    detail.get_default_transform_listener_static_sub_options.

(* ------------------------------------------------------------------- *)
(** *** The destructor (declared at lines 164-165) and the life of a listener *)
(* ------------------------------------------------------------------- *)

(** [executor->cancel()]: asks the loop of [spin()] to stop. *)
Definition executor_cancel (e : nat) : M B unit :=
  fun w =>
    Returned tt
      (log (EvCancel e)
         (set_executors
            (alter
               (fun ex => {| ex_callback_groups := ex_callback_groups ex;
                             ex_cancelled := true |})
               e (w_executors w)) w)).

(** The body of thread [t] returns. *)
Definition thread_exit (t : nat) (w : World B) : World B :=
  log (EvThreadExit t)
    (set_threads
       (alter
          (fun th => {| th_body := th_body th; th_finished := true;
                        th_joined := th_joined th |})
          t (w_threads w)) w).

(** [thread->join()]: the caller is blocked for as long as the body of
    the thread has not returned, which is [None] here. *)
Definition thread_join (t : nat) (w : World B) : option (World B) :=
  match w_threads w !! t with
  | Some th =>
      if th_finished th then
        Some (log (EvJoin t)
                (set_threads
                   (<[t := {| th_body := th_body th; th_finished := true;
                              th_joined := true |}]> (w_threads w)) w))
      else None
  | None => None
  end.

(** Modelled from the spec: the body of [~TransformListener()] is in
    transform_listener.cpp, of which only the declaration is at hand.
    "Destruction must stop the execution loop and join the background
    thread before the listener object is destroyed"; in external mode
    there is neither loop nor thread.  The destructor is two steps, since
    the second one can block. *)
Definition dtor_stop (this : TransformListener) : M B unit :=
  if spin_thread_ this then
    match executor_ this with
    | Some e => executor_cancel e
    | None => ret tt
    end
  else ret tt.

Definition dtor_join (this : TransformListener) (w : World B) : option (World B) :=
  if spin_thread_ this then
    match dedicated_listener_thread_ this with
    | Some t => thread_join t w
    | None => Some w
    end
  else Some w.

(** Where the owner of the listener is: the listener is in use, its
    destructor has asked the loop to stop and waits at the join, or the
    destructor has returned. *)
Inductive Phase : Type :=
| Alive
| Stopping
| Destroyed.

(** What can happen to listener [l] after its construction, one step at
    a time, the background thread and the owner of the listener taking
    turns in any order.
    - [step_spin]: the loop of [executor->spin()] on the background thread
      takes a message for a subscription of one of its groups and runs the
      callback (also when [cancel()] has been called in the meantime: a
      callback that was already chosen still runs);
    - [step_spin_return]: the loop sees the cancellation and the thread
      body returns;
    - [step_external]: in external mode, the caller's own executor runs the
      callback of one of the two subscriptions;
    - [step_dtor_stop], [step_dtor_join]: the two steps of the destructor. *)
Inductive lstep (l : TransformListener) : Phase * World B -> Phase * World B -> Prop :=
| step_spin p w t th e ex g cg s msg w' :
    dedicated_listener_thread_ l = Some t ->
    w_threads w !! t = Some th ->
    th_finished th = false ->
    th_body th = spin_executor e ->
    w_executors w !! e = Some ex ->
    g ∈ ex_callback_groups ex ->
    w_groups w !! g = Some cg ->
    s ∈ cg_subscriptions cg ->
    deliver s msg w = Returned tt w' ->
    lstep l (p, w) (p, w')
| step_spin_return p w t th e ex :
    dedicated_listener_thread_ l = Some t ->
    w_threads w !! t = Some th ->
    th_finished th = false ->
    th_body th = spin_executor e ->
    w_executors w !! e = Some ex ->
    ex_cancelled ex = true ->
    lstep l (p, w) (p, thread_exit t w)
| step_external w s msg w' :
    spin_thread_ l = false ->
    message_subscription_tf_ l = Some s \/ message_subscription_tf_static_ l = Some s ->
    deliver s msg w = Returned tt w' ->
    lstep l (Alive, w) (Alive, w')
| step_dtor_stop w w' :
    dtor_stop l w = Returned tt w' ->
    lstep l (Alive, w) (Stopping, w')
| step_dtor_join w w' :
    dtor_join l w = Some w' ->
    lstep l (Stopping, w) (Destroyed, w').

(** What holds of the background thread [t] and the executor [e] of a
    listener in dedicated mode, all through its life: the executor has been
    cancelled once the destructor is under way; the thread body returns only
    after the cancellation; the destructor returns only after the body has
    returned, and the join is then the last event. *)
Definition dedicated_inv (t e : nat) (c : Phase * World B) : Prop :=
  exists th ex,
    w_threads c.2 !! t = Some th /\
    th_body th = spin_executor e /\
    w_executors c.2 !! e = Some ex /\
    (c.1 <> Alive -> ex_cancelled ex = true) /\
    (th_finished th = true ->
     ex_cancelled ex = true /\ EvThreadExit t ∈ w_trace c.2) /\
    (c.1 = Destroyed ->
     th_finished th = true /\ th_joined th = true /\
     exists tr, w_trace c.2 = tr ++ [EvJoin t]).

(* ------------------------------------------------------------------- *)
(** *** Reading a trace *)
(* ------------------------------------------------------------------- *)

(** The [insertTransform] calls of a trace, in order: the announcement,
    the flag and whether the call succeeded. *)
Definition insert_calls (tr : list Event)
    : list (TransformAnnouncement * bool * bool) :=
  omap (fun ev =>
          match ev with
          | EvInsertTransform a st r => Some (a, st, is_ok r)
          | _ => None
          end) tr.

Definition is_diagnostic (ev : Event) : bool :=
  match ev with EvLogError _ _ => true | _ => false end.

Definition is_successful_insert (ev : Event) : bool :=
  match ev with EvInsertTransform _ _ InsertOk => true | _ => false end.

Definition is_set_dedicated (ev : Event) : bool :=
  match ev with EvSetUsingDedicatedThread _ => true | _ => false end.

Definition is_thread_start (ev : Event) : bool :=
  match ev with EvThreadStart _ _ => true | _ => false end.

Definition is_create_subscription (ev : Event) : bool :=
  match ev with EvCreateSubscription _ _ _ _ => true | _ => false end.

Definition is_create_callback_group (ev : Event) : bool :=
  match ev with EvCreateCallbackGroup _ _ _ => true | _ => false end.

Definition is_make_executor (ev : Event) : bool :=
  match ev with EvMakeExecutor _ => true | _ => false end.

(** The object and the state of an outcome. *)
Definition listener_of (o : outcome B TransformListener) : TransformListener :=
  match o with
  | Returned l _ => l
  | Thrown _ _ => TransformListener_members
  end.

Definition world_of {A : Type} (o : outcome B A) : World B :=
  match o with
  | Returned _ w => w
  | Thrown _ w => w
  end.

(** How many events of a trace satisfy [p]. *)
Definition count_events (p : Event -> bool) (tr : list Event) : nat :=
  length (List.filter p tr).

(** Every event satisfying [p] comes before every event satisfying [q]. *)
Definition precedes (p q : Event -> bool) (tr : list Event) : Prop :=
  forall i j a b,
    tr !! i = Some a -> p a = true ->
    tr !! j = Some b -> q b = true ->
    i < j.

(** Two states with the same groups, subscriptions, executors, threads
    and faults: they differ in the buffer and the trace at most. *)
Definition same_middleware (w w' : World B) : Prop :=
  w_groups w' = w_groups w /\
  w_subscriptions w' = w_subscriptions w /\
  w_executors w' = w_executors w /\
  w_threads w' = w_threads w /\
  w_faults w' = w_faults w.

Definition is_add_callback_group (ev : Event) : bool :=
  match ev with EvAddCallbackGroup _ _ => true | _ => false end.

(** The exception of an outcome, if it is one. *)
Definition exception_of {A : Type} (o : outcome B A) : option Exception :=
  match o with
  | Returned _ _ => None
  | Thrown e _ => Some e
  end.

(** From [w] to [w'] nothing has been taken away or changed, only added:
    the subscriptions, executors, threads and calls of [w] are still there,
    in their places and as they were, and a callback group of [w] is still
    of its type and has the members it had, perhaps followed by new ones. *)
Definition only_adds (w w' : World B) : Prop :=
  w_subscriptions w `prefix_of` w_subscriptions w' /\
  w_executors w `prefix_of` w_executors w' /\
  w_threads w `prefix_of` w_threads w' /\
  w_trace w `prefix_of` w_trace w' /\
  w_faults w' = w_faults w /\
  (forall g cg,
      w_groups w !! g = Some cg ->
      exists cg',
        w_groups w' !! g = Some cg' /\
        cg_type cg' = cg_type cg /\
        cg_automatically_add_to_executor_with_node cg'
          = cg_automatically_add_to_executor_with_node cg /\
        cg_subscriptions cg `prefix_of` cg_subscriptions cg').

Definition is_insert_transform (ev : Event) : bool :=
  match ev with EvInsertTransform _ _ _ => true | _ => false end.

(* --------------------------------------------------------------------- *)
(** *** The construction in dedicated mode, with the background thread *)
(* --------------------------------------------------------------------- *)

(** The thread of line 214 runs [executor->spin()] from the moment it is
    constructed, while the constructing thread still has line 216 before
    it.  To let the two interleave, the dedicated branch of [init] is cut
    after line 214: [init_dedicated_until_thread] is lines 181-214 and
    [init_dedicated_tell_buffer] is line 216.  Run one after the other they
    are [init] (lemma [init_dedicated_cut]). *)
Definition init_dedicated_until_thread
    (this : TransformListener)
    (node_base node_logging node_parameters node_topics : NodeHandle)
    (qos static_qos : QoS)
    (options static_options : SubscriptionOptions)
    (tf_ns : string) : M B TransformListener :=
  let this := set_spin_thread_ true this in
  let this := set_node_base_interface_ (Some node_base) this in
  let this := set_node_logging_interface_ (Some node_logging) this in
  let cb := bind_subscription_callback false in
  let static_cb := bind_subscription_callback true in
  let* g := create_callback_group node_base MutuallyExclusive false in
  let this := set_callback_group_ (Some g) this in
  let tf_options := options in
  let tf_static_options := static_options in
  let tf_options := with_callback_group (callback_group_ this) tf_options in
  let tf_static_options :=
    with_callback_group (callback_group_ this) tf_static_options in
  let* s := create_subscription node_parameters node_topics
              (tf_ns +:+ "/tf") qos cb tf_options in
  let this := set_message_subscription_tf_ (Some s) this in
  let* s' := create_subscription node_parameters node_topics
               (tf_ns +:+ "/tf_static") static_qos static_cb tf_static_options in
  let this := set_message_subscription_tf_static_ (Some s') this in
  let* e := make_SingleThreadedExecutor in
  let this := set_executor_ (Some e) this in
  let* _ := add_callback_group e g node_base in
  let* t := make_thread (spin_executor e) in
  let this := set_dedicated_listener_thread_ (Some t) this in
  ret this.

Definition init_dedicated_tell_buffer (this : TransformListener)
    : M B TransformListener :=
  (* Tell the buffer we have a dedicated thread to enable timeouts *)
  let* _ := buffer_setUsingDedicatedThread true in
  ret this.

(** Where the constructing thread is: before [init], between line 214 and
    line 216 with the object as it is by then, or done. *)
Inductive CtorPhase : Type :=
| NotStarted
| ThreadStarted (this : TransformListener)
| Constructed (l : TransformListener).

(** The construction of a listener in dedicated mode by the node interface
    constructor, one step at a time:
    - [cstep_start]: the constructing thread runs lines 181-214;
    - [cstep_background]: the background thread, which is running from
      line 214 on, takes a step of its own (a step of [lstep] that is not
      one of the destructor), before the constructing thread goes on;
    - [cstep_tell_buffer]: the constructing thread runs line 216 and the
      constructor returns. *)
Inductive cstep
    (node_base node_logging node_parameters node_topics : NodeHandle)
    (qos static_qos : QoS) (options static_options : SubscriptionOptions)
    : CtorPhase * World B -> CtorPhase * World B -> Prop :=
| cstep_start w this w' :
    init_dedicated_until_thread TransformListener_members
      node_base node_logging node_parameters node_topics
      qos static_qos options static_options "" w = Returned this w' ->
    cstep node_base node_logging node_parameters node_topics
      qos static_qos options static_options
      (NotStarted, w) (ThreadStarted this, w')
| cstep_background this w w' :
    lstep this (Alive, w) (Alive, w') ->
    cstep node_base node_logging node_parameters node_topics
      qos static_qos options static_options
      (ThreadStarted this, w) (ThreadStarted this, w')
| cstep_tell_buffer this w l w' :
    init_dedicated_tell_buffer this w = Returned l w' ->
    cstep node_base node_logging node_parameters node_topics
      qos static_qos options static_options
      (ThreadStarted this, w) (Constructed l, w').

(* --------------------------------------------------------------------- *)
(** *** The listener among others *)
(* --------------------------------------------------------------------- *)

(** A step of someone other than the listener (the owner of the buffer,
    the middleware, another listener) that does not write the buffer's
    dedicated-thread flag.  It may change anything else. *)
Definition other_step_keeps_flag (c c' : Phase * World B) : Prop :=
  c'.1 = c.1 /\
  isUsingDedicatedThread (w_buffer c'.2) = isUsingDedicatedThread (w_buffer c.2).

(** The life of listener [l] among others that keep the flag: a step of
    the listener or a step of someone else. *)
Definition life_step (l : TransformListener) (c c' : Phase * World B) : Prop :=
  lstep l c c' \/ other_step_keeps_flag c c'.

End Listener.

(* ===================================================================== *)
(** ** A node to run the listener on *)
(* ===================================================================== *)

Module Scenario.

(** A node with its default callback group and nothing else, and a fresh
    buffer. *)
Definition node (f : Faults) (b : BufferCore) : World BufferCore :=
  {| w_buffer := b;
     w_groups :=
       [{| cg_type := MutuallyExclusive;
           cg_automatically_add_to_executor_with_node := true;
           cg_subscriptions := [] |}];
     w_subscriptions := [];
     w_executors := [];
     w_threads := [];
     w_faults := f;
     w_trace := [] |}.

Definition w0 : World BufferCore := node no_faults BufferCore_new.

(** An environment in which no thread can be started. *)
Definition no_threads : Faults :=
  {| bind_fails := fun _ => false; thread_start_fails := true |}.

(** A buffer whose owner has already declared a dedicated thread, as the
    owner of a buffer is free to do. *)
Definition flagged_buffer : BufferCore :=
  BufferCore_setUsingDedicatedThread true BufferCore_new.

Definition qos : QoS :=
  {| qos_depth := 100; qos_reliable := true; qos_transient_local := false |}.

Definition static_qos : QoS :=
  {| qos_depth := 1; qos_reliable := true; qos_transient_local := true |}.

Definition base_odom : TransformAnnouncement :=
  {| frame_id := "base"; child_frame_id := "odom"; stamp := 0; authority := "a" |}.

Definition odom_robot : TransformAnnouncement :=
  {| frame_id := "odom"; child_frame_id := "robot"; stamp := 1000000000;
     authority := "a" |}.

(** Self-parenting: malformed. *)
Definition robot_robot : TransformAnnouncement :=
  {| frame_id := "robot"; child_frame_id := "robot"; stamp := 5; authority := "a" |}.

(** The spec's batch of three announcements, one of them malformed. *)
Definition batch3 : TFMessage := [base_odom; robot_robot; odom_robot].

(** A listener in external mode on the plain node, and the state after
    the caller's executor has run the dynamic callback on [batch3]. *)
Definition external : outcome BufferCore TransformListener :=
  TransformListener_ctor 0 0 0 0 false qos static_qos
    detail.get_default_transform_listener_sub_options
    detail.get_default_transform_listener_static_sub_options w0.

Definition l_external : TransformListener :=
  Eval vm_compute in listener_of external.

Definition w_external : World BufferCore :=
  Eval vm_compute in world_of external.

Definition w_external_batch : World BufferCore :=
  Eval vm_compute in world_of (deliver 0 batch3 w_external).

(** A listener in dedicated mode on the plain node, and one run of its
    life: the background thread runs the static callback on [batch3], the
    destructor cancels the executor, the thread body returns, the
    destructor joins. *)
Definition dedicated : outcome BufferCore TransformListener :=
  TransformListener_ctor 0 0 0 0 true qos static_qos
    detail.get_default_transform_listener_sub_options
    detail.get_default_transform_listener_static_sub_options w0.

Definition l_dedicated : TransformListener :=
  Eval vm_compute in listener_of dedicated.

Definition w_dedicated : World BufferCore :=
  Eval vm_compute in world_of dedicated.

Definition w_dedicated_batch : World BufferCore :=
  Eval vm_compute in world_of (deliver 1 batch3 w_dedicated).

Definition w_dedicated_stopping : World BufferCore :=
  Eval vm_compute in world_of (dtor_stop l_dedicated w_dedicated_batch).

Definition w_dedicated_exited : World BufferCore :=
  Eval vm_compute in thread_exit 0 w_dedicated_stopping.

Definition w_dedicated_destroyed : World BufferCore :=
  Eval vm_compute in default w_dedicated_exited
                       (dtor_join l_dedicated w_dedicated_exited).

(** The owner of the buffer stores a transform of its own in the buffer of
    the external listener. *)
Definition w_external_other : World BufferCore :=
  Eval vm_compute in
    set_buffer
      (snd (BufferCore_insertTransform odom_robot true (w_buffer w_external_batch)))
      w_external_batch.

(** The construction in dedicated mode, step by step, with the background
    thread running the static callback on [batch3] between the start of the
    thread and the call that tells the buffer. *)
Definition started : outcome BufferCore TransformListener :=
  init_dedicated_until_thread TransformListener_members 0 0 0 0
    qos static_qos
    detail.get_default_transform_listener_sub_options
    detail.get_default_transform_listener_static_sub_options "" w0.

Definition this_started : TransformListener :=
  Eval vm_compute in listener_of started.

Definition w_started : World BufferCore :=
  Eval vm_compute in world_of started.

Definition w_started_batch : World BufferCore :=
  Eval vm_compute in world_of (deliver 1 batch3 w_started).

Definition w_constructed_late : World BufferCore :=
  Eval vm_compute in
    world_of (init_dedicated_tell_buffer this_started w_started_batch).

End Scenario.

(* ===================================================================== *)
(** * Properties *)
(* ===================================================================== *)

(** ** Lists named by index *)

Lemma lookup_snoc_length {A : Type} (l : list A) (x : A) :
  (l ++ [x]) !! length l = Some x.
Proof. apply list_lookup_middle. reflexivity. Qed.

Lemma insert_snoc_length {A : Type} (l : list A) (x y : A) :
  <[length l := y]> (l ++ [x]) = l ++ [y].
Proof.
  replace (length l) with (length l + 0) by lia.
  rewrite insert_app_r. reflexivity.
Qed.

Lemma alter_snoc_length {A : Type} (f : A -> A) (l : list A) (x : A) :
  alter f (length l) (l ++ [x]) = l ++ [f x].
Proof.
  replace (length l) with (length l + 0) by lia.
  rewrite alter_app_r. reflexivity.
Qed.

Lemma lookup_two_fst {A : Type} (l : list A) (x y : A) :
  (l ++ [x; y]) !! length l = Some x.
Proof. apply list_lookup_middle. reflexivity. Qed.

Lemma lookup_two_snd {A : Type} (l : list A) (x y : A) :
  (l ++ [x; y]) !! S (length l) = Some y.
Proof.
  rewrite lookup_app_r by lia.
  replace (S (length l) - length l) with 1 by lia. reflexivity.
Qed.

(** ** Counting the events of a trace *)

Section TraceFacts.

Context {B : Type} `{BA : BufferAdapter B}.

Lemma count_events_app (p : Event -> bool) (tr tr' : list Event) :
  count_events p (tr ++ tr') = count_events p tr + count_events p tr'.
Proof. unfold count_events. rewrite List.filter_app, length_app. reflexivity. Qed.

Lemma insert_calls_app (tr tr' : list Event) :
  insert_calls (tr ++ tr') = insert_calls tr ++ insert_calls tr'.
Proof. unfold insert_calls. apply omap_app. Qed.

Lemma same_middleware_refl (w : World B) : same_middleware w w.
Proof. repeat split. Qed.

Lemma same_middleware_trans (w1 w2 w3 : World B) :
  same_middleware w1 w2 -> same_middleware w2 w3 -> same_middleware w1 w3.
Proof.
  unfold same_middleware. intros (-> & -> & -> & -> & ->) (-> & -> & -> & -> & ->).
  repeat split.
Qed.

End TraceFacts.

(** ** One batch through the callback *)

Section CallbackFacts.

Context {B : Type} `{BA : BufferAdapter B}.

(** [subscription_callback] always returns, and what it adds to the trace
    is one [insertTransform] call per announcement, in arrival order and
    with the flag it was given, each failed one followed by a diagnostic.
    It changes nothing but the buffer and the trace, and not the buffer's
    dedicated-thread flag. *)
Lemma subscription_callback_spec (msg : TFMessage) (is_static : bool) :
  forall w : World B,
  exists w' evs,
    subscription_callback msg is_static w = Returned tt w' /\
    w_trace w' = w_trace w ++ evs /\
    same_middleware w w' /\
    isUsingDedicatedThread (w_buffer w') = isUsingDedicatedThread (w_buffer w) /\
    (insert_calls evs).*1 = map (fun a => (a, is_static)) msg /\
    count_events is_successful_insert evs + count_events is_diagnostic evs
      = length msg /\
    count_events is_set_dedicated evs = 0 /\
    (forall mal : TransformAnnouncement -> bool,
        (forall a st b, is_ok (fst (insertTransform a st b)) = negb (mal a)) ->
        count_events is_diagnostic evs = length (List.filter mal msg)).
Proof.
  induction msg as [| a rest IH]; intros w.
  - exists w, []. cbn. rewrite app_nil_r.
    repeat split; reflexivity.
  - cbn [subscription_callback].
    unfold bind at 1. unfold buffer_insertTransform at 1.
    destruct (insertTransform a is_static (w_buffer w)) as [r b'] eqn:Hins.
    cbn [fst snd].
    pose proof (flag_after_insert a is_static (w_buffer w)) as Hflag.
    rewrite Hins in Hflag. cbn [snd] in Hflag.
    destruct r as [| reason].
    + unfold bind at 1. unfold ret at 1.
      destruct (IH (log (EvInsertTransform a is_static InsertOk)
                      (set_buffer b' w)))
        as (w' & evs & Hrun & Htr & Hsame & Hfl & Hcalls & Hcnt & Hset & Hmal).
      exists w', (EvInsertTransform a is_static InsertOk :: evs).
      split; [exact Hrun |].
      split; [rewrite Htr; cbn; rewrite <- app_assoc; reflexivity |].
      split; [exact Hsame |].
      split; [rewrite Hfl; cbn; exact Hflag |].
      split; [cbn; f_equal; exact Hcalls |].
      split; [unfold count_events in *; cbn; lia |].
      split; [exact Hset |].
      intros mal Hm.
      change (count_events is_diagnostic
                (EvInsertTransform a is_static InsertOk :: evs))
        with (count_events is_diagnostic evs).
      rewrite (Hmal mal Hm). cbn.
      specialize (Hm a is_static (w_buffer w)). rewrite Hins in Hm. cbn in Hm.
      destruct (mal a); [discriminate | reflexivity].
    + unfold bind at 1. unfold log_error at 1.
      destruct (IH (log (EvLogError a reason)
                      (log (EvInsertTransform a is_static (InsertError reason))
                         (set_buffer b' w))))
        as (w' & evs & Hrun & Htr & Hsame & Hfl & Hcalls & Hcnt & Hset & Hmal).
      exists w', (EvInsertTransform a is_static (InsertError reason)
                  :: EvLogError a reason :: evs).
      split; [exact Hrun |].
      split; [rewrite Htr; cbn; rewrite <- !app_assoc; reflexivity |].
      split; [exact Hsame |].
      split; [rewrite Hfl; cbn; exact Hflag |].
      split; [cbn; f_equal; exact Hcalls |].
      split; [unfold count_events in *; cbn; lia |].
      split; [exact Hset |].
      intros mal Hm.
      change (count_events is_diagnostic
                (EvInsertTransform a is_static (InsertError reason)
                 :: EvLogError a reason :: evs))
        with (S (count_events is_diagnostic evs)).
      rewrite (Hmal mal Hm). cbn.
      specialize (Hm a is_static (w_buffer w)). rewrite Hins in Hm. cbn in Hm.
      destruct (mal a); [reflexivity | discriminate].
Qed.

(** The same for a message handed to a subscription that exists. *)
Lemma deliver_spec (s : nat) (sub : Subscription) (msg : TFMessage) (w : World B) :
  w_subscriptions w !! s = Some sub ->
  exists w' evs,
    deliver s msg w = Returned tt w' /\
    w_trace w' = w_trace w ++ evs /\
    same_middleware w w' /\
    isUsingDedicatedThread (w_buffer w') = isUsingDedicatedThread (w_buffer w) /\
    (insert_calls evs).*1 =
      map (fun a => (a, match sub_callback sub with
                        | bind_subscription_callback is_static => is_static
                        end)) msg.
Proof.
  intros Hsub. unfold deliver. rewrite Hsub.
  destruct (sub_callback sub) as [is_static]. cbn [invoke].
  destruct (subscription_callback_spec msg is_static w)
    as (w' & evs & Hrun & Htr & Hsame & Hfl & Hcalls & _).
  exists w', evs. repeat split; try assumption; apply Hsame.
Qed.

(** Whatever the subscription, a delivery returns and keeps the
    middleware and the flag. *)
Lemma deliver_frame (s : nat) (msg : TFMessage) (w w' : World B) :
  deliver s msg w = Returned tt w' ->
  same_middleware w w' /\
  isUsingDedicatedThread (w_buffer w') = isUsingDedicatedThread (w_buffer w) /\
  exists evs, w_trace w' = w_trace w ++ evs.
Proof.
  unfold deliver.
  destruct (w_subscriptions w !! s) as [sub |] eqn:Hsub.
  - destruct (sub_callback sub) as [is_static]. cbn [invoke].
    destruct (subscription_callback_spec msg is_static w)
      as (w1 & evs & Hrun & Htr & Hsame & Hfl & _).
    rewrite Hrun. intros Heq. injection Heq as <-.
    split; [assumption |]. split; [assumption |]. exists evs. exact Htr.
  - intros Heq. injection Heq as <-.
    split; [apply same_middleware_refl |]. split; [reflexivity |].
    exists []. rewrite app_nil_r. reflexivity.
Qed.

End CallbackFacts.

(** ** What a successful or failed [init] leaves behind *)

Section InitFacts.

Context {B : Type} `{BA : BufferAdapter B}.

Variables (this : TransformListener).
Variables (node_base node_logging node_parameters node_topics : NodeHandle).
Variables (qos static_qos : QoS) (options static_options : SubscriptionOptions).
Variable (tf_ns : string).

(** Dedicated mode, nothing refused: the object and the state [init]
    returns, written out. *)
Lemma init_dedicated_returns (w : World B) :
  bind_fails (w_faults w) (tf_ns +:+ "/tf") = false ->
  bind_fails (w_faults w) (tf_ns +:+ "/tf_static") = false ->
  thread_start_fails (w_faults w) = false ->
  let g := length (w_groups w) in
  let s := length (w_subscriptions w) in
  let e := length (w_executors w) in
  let t := length (w_threads w) in
  init this node_base node_logging node_parameters node_topics
       true qos static_qos options static_options tf_ns w
  = Returned
      {| spin_thread_ := true;
         dedicated_listener_thread_ := Some t;
         executor_ := Some e;
         optional_default_node_ := optional_default_node_ this;
         message_subscription_tf_ := Some s;
         message_subscription_tf_static_ := Some (S s);
         node_logging_interface_ := Some node_logging;
         node_base_interface_ := Some node_base;
         callback_group_ := Some g |}
      {| w_buffer := setUsingDedicatedThread true (w_buffer w);
         w_groups :=
           w_groups w ++
           [{| cg_type := MutuallyExclusive;
               cg_automatically_add_to_executor_with_node := false;
               cg_subscriptions := [s; S s] |}];
         w_subscriptions :=
           w_subscriptions w ++
           [{| sub_topic := tf_ns +:+ "/tf"; sub_qos := qos;
               sub_callback := bind_subscription_callback false;
               sub_options := with_callback_group (Some g) options |};
            {| sub_topic := tf_ns +:+ "/tf_static"; sub_qos := static_qos;
               sub_callback := bind_subscription_callback true;
               sub_options := with_callback_group (Some g) static_options |}];
         w_executors :=
           w_executors w ++ [{| ex_callback_groups := [g]; ex_cancelled := false |}];
         w_threads :=
           w_threads w ++
           [{| th_body := spin_executor e; th_finished := false;
               th_joined := false |}];
         w_faults := w_faults w;
         w_trace :=
           w_trace w ++
           [EvCreateCallbackGroup g MutuallyExclusive false;
            EvCreateSubscription s (tf_ns +:+ "/tf")
              (bind_subscription_callback false) (Some g);
            EvCreateSubscription (S s) (tf_ns +:+ "/tf_static")
              (bind_subscription_callback true) (Some g);
            EvMakeExecutor e;
            EvAddCallbackGroup e g;
            EvThreadStart t (spin_executor e);
            EvSetUsingDedicatedThread true] |}.
Proof.
  intros Htf Hst Hth g s e t.
  unfold init, bind, create_callback_group, create_subscription,
    make_SingleThreadedExecutor, add_callback_group, make_thread,
    buffer_setUsingDedicatedThread, ret, log, set_groups, set_subscriptions,
    set_executors, set_threads, set_buffer.
  cbn.
  rewrite Htf. cbn. rewrite lookup_snoc_length. cbn.
  rewrite Hst. cbn. rewrite insert_snoc_length, lookup_snoc_length. cbn.
  rewrite Hth. cbn.
  rewrite insert_snoc_length, alter_snoc_length. cbn.
  rewrite length_app. cbn.
  replace (length (w_subscriptions w) + 1) with (S (length (w_subscriptions w))) by lia.
  rewrite <- !app_assoc. cbn.
  reflexivity.
Qed.

(** Dedicated mode: [init] returns only when nothing was refused. *)
Lemma init_dedicated_returned_inv (w w' : World B) (l : TransformListener) :
  init this node_base node_logging node_parameters node_topics
       true qos static_qos options static_options tf_ns w = Returned l w' ->
  bind_fails (w_faults w) (tf_ns +:+ "/tf") = false /\
  bind_fails (w_faults w) (tf_ns +:+ "/tf_static") = false /\
  thread_start_fails (w_faults w) = false.
Proof.
  unfold init, bind, create_callback_group, create_subscription,
    make_SingleThreadedExecutor, add_callback_group, make_thread,
    buffer_setUsingDedicatedThread, ret, log, set_groups, set_subscriptions,
    set_executors, set_threads, set_buffer.
  cbn.
  destruct (bind_fails (w_faults w) (tf_ns +:+ "/tf")) eqn:Htf; [discriminate |].
  cbn. rewrite lookup_snoc_length. cbn.
  destruct (bind_fails (w_faults w) (tf_ns +:+ "/tf_static")) eqn:Hst; [discriminate |].
  cbn. rewrite insert_snoc_length, lookup_snoc_length. cbn.
  destruct (thread_start_fails (w_faults w)) eqn:Hth; [discriminate |].
  intros _. repeat split.
Qed.

(** Dedicated mode, something refused: [init] throws; the buffer has not
    been told of a dedicated thread and no thread has been started. *)
Lemma init_dedicated_throws (w : World B) :
  bind_fails (w_faults w) (tf_ns +:+ "/tf") = true \/
  bind_fails (w_faults w) (tf_ns +:+ "/tf_static") = true \/
  thread_start_fails (w_faults w) = true ->
  exists e w',
    init this node_base node_logging node_parameters node_topics
         true qos static_qos options static_options tf_ns w = Thrown e w' /\
    w_buffer w' = w_buffer w /\ w_threads w' = w_threads w.
Proof.
  intros Hfault.
  unfold init, bind, create_callback_group, create_subscription,
    make_SingleThreadedExecutor, add_callback_group, make_thread,
    buffer_setUsingDedicatedThread, ret, log, set_groups, set_subscriptions,
    set_executors, set_threads, set_buffer.
  cbn.
  destruct (bind_fails (w_faults w) (tf_ns +:+ "/tf")) eqn:Htf.
  { eexists _, _. split; [reflexivity | split; reflexivity]. }
  cbn. rewrite lookup_snoc_length. cbn.
  destruct (bind_fails (w_faults w) (tf_ns +:+ "/tf_static")) eqn:Hst.
  { eexists _, _. split; [reflexivity | split; reflexivity]. }
  cbn. rewrite insert_snoc_length, lookup_snoc_length. cbn.
  destruct (thread_start_fails (w_faults w)) eqn:Hth.
  { eexists _, _. split; [reflexivity | split; reflexivity]. }
  destruct Hfault as [H | [H | H]]; discriminate.
Qed.

(** External mode: what a returning [init] has done. *)
Lemma init_external_returned_inv (w w' : World B) (l : TransformListener) :
  init this node_base node_logging node_parameters node_topics
       false qos static_qos options static_options tf_ns w = Returned l w' ->
  let s := length (w_subscriptions w) in
  bind_fails (w_faults w) (tf_ns +:+ "/tf") = false /\
  bind_fails (w_faults w) (tf_ns +:+ "/tf_static") = false /\
  l = {| spin_thread_ := false;
         dedicated_listener_thread_ := dedicated_listener_thread_ this;
         executor_ := executor_ this;
         optional_default_node_ := optional_default_node_ this;
         message_subscription_tf_ := Some s;
         message_subscription_tf_static_ := Some (S s);
         node_logging_interface_ := Some node_logging;
         node_base_interface_ := Some node_base;
         callback_group_ := callback_group_ this |} /\
  w_buffer w' = w_buffer w /\
  w_subscriptions w' =
    w_subscriptions w ++
    [{| sub_topic := tf_ns +:+ "/tf"; sub_qos := qos;
        sub_callback := bind_subscription_callback false;
        sub_options := options |};
     {| sub_topic := tf_ns +:+ "/tf_static"; sub_qos := static_qos;
        sub_callback := bind_subscription_callback true;
        sub_options := static_options |}] /\
  length (w_groups w') = length (w_groups w) /\
  w_executors w' = w_executors w /\
  w_threads w' = w_threads w /\
  w_faults w' = w_faults w /\
  w_trace w' =
    w_trace w ++
    [EvCreateSubscription s (tf_ns +:+ "/tf")
       (bind_subscription_callback false) (callback_group options);
     EvCreateSubscription (S s) (tf_ns +:+ "/tf_static")
       (bind_subscription_callback true) (callback_group static_options)].
Proof.
  unfold init, bind, create_subscription, ret, log, set_groups, set_subscriptions.
  cbn.
  destruct (bind_fails (w_faults w) (tf_ns +:+ "/tf")) eqn:Htf; [discriminate |].
  destruct (w_groups w !! default 0 (callback_group options)) as [cg |] eqn:Hg;
    [| discriminate].
  cbn.
  destruct (bind_fails (w_faults w) (tf_ns +:+ "/tf_static")) eqn:Hst; [discriminate |].
  match goal with
  | |- context [match ?x with Some _ => _ | None => _ end] =>
      destruct x as [cg' |] eqn:Hg'; [| discriminate]
  end.
  intros Heq. injection Heq as <- <-. cbn.
  rewrite !length_insert, length_app. cbn.
  replace (length (w_subscriptions w) + 1) with (S (length (w_subscriptions w))) by lia.
  rewrite <- !app_assoc. cbn.
  repeat split; reflexivity.
Qed.

(** External mode, a topic refused: [init] throws, whatever the groups. *)
Lemma init_external_throws (w : World B) :
  bind_fails (w_faults w) (tf_ns +:+ "/tf") = true \/
  bind_fails (w_faults w) (tf_ns +:+ "/tf_static") = true ->
  exists e w',
    init this node_base node_logging node_parameters node_topics
         false qos static_qos options static_options tf_ns w = Thrown e w' /\
    w_buffer w' = w_buffer w /\ w_threads w' = w_threads w.
Proof.
  intros Hfault.
  destruct (init this node_base node_logging node_parameters node_topics
              false qos static_qos options static_options tf_ns w)
    as [l w' | e w'] eqn:Hinit.
  - apply init_external_returned_inv in Hinit.
    destruct Hinit as (Htf & Hst & _).
    destruct Hfault as [H | H]; congruence.
  - exists e, w'. split; [reflexivity |].
    revert Hinit.
    unfold init, bind, create_subscription, ret, log, set_groups, set_subscriptions.
    cbn.
    destruct (bind_fails (w_faults w) (tf_ns +:+ "/tf")).
    { intros Heq. injection Heq as <- <-. split; reflexivity. }
    destruct (w_groups w !! default 0 (callback_group options)) as [cg |].
    2: { intros Heq. injection Heq as <- <-. split; reflexivity. }
    cbn.
    destruct (bind_fails (w_faults w) (tf_ns +:+ "/tf_static")).
    { intros Heq. injection Heq as <- <-. split; reflexivity. }
    match goal with
    | |- context [match ?x with Some _ => _ | None => _ end] =>
        destruct x as [cg' |]
    end.
    + discriminate.
    + intros Heq. injection Heq as <- <-. split; reflexivity.
Qed.

(** Either mode: the two subscriptions a returning [init] has created.
    The options are the caller's, up to the callback group. *)
Lemma init_returned_subscriptions (spin_thread : bool) (w w' : World B)
    (l : TransformListener) :
  init this node_base node_logging node_parameters node_topics
       spin_thread qos static_qos options static_options tf_ns w = Returned l w' ->
  exists o o' evs,
    w_subscriptions w' =
      w_subscriptions w ++
      [{| sub_topic := tf_ns +:+ "/tf"; sub_qos := qos;
          sub_callback := bind_subscription_callback false;
          sub_options := o |};
       {| sub_topic := tf_ns +:+ "/tf_static"; sub_qos := static_qos;
          sub_callback := bind_subscription_callback true;
          sub_options := o' |}] /\
    message_subscription_tf_ l = Some (length (w_subscriptions w)) /\
    message_subscription_tf_static_ l = Some (S (length (w_subscriptions w))) /\
    o = (if spin_thread
         then with_callback_group (Some (length (w_groups w))) options
         else options) /\
    o' = (if spin_thread
          then with_callback_group (Some (length (w_groups w))) static_options
          else static_options) /\
    w_trace w' = w_trace w ++ evs /\
    count_events is_create_subscription evs = 2.
Proof.
  intros Hinit. destruct spin_thread.
  - destruct (init_dedicated_returned_inv _ _ _ Hinit) as (Htf & Hst & Hth).
    rewrite (init_dedicated_returns w Htf Hst Hth) in Hinit.
    injection Hinit as <- <-. cbn.
    eexists _, _, _. repeat split.
  - destruct (init_external_returned_inv _ _ _ Hinit)
      as (_ & _ & -> & _ & Hsubs & _ & _ & _ & _ & Htr).
    cbn. eexists _, _, _.
    split; [exact Hsubs |].
    split; [reflexivity |]. split; [reflexivity |].
    split; [reflexivity |]. split; [reflexivity |].
    split; [exact Htr | reflexivity].
Qed.

End InitFacts.

(** ** The life of a listener, step by step *)

Section LifeFacts.

Context {B : Type} `{BA : BufferAdapter B}.

(** No step touches the dedicated-thread flag, and every step extends the
    trace. *)
Lemma lstep_frame (l : TransformListener) (c c' : Phase * World B) :
  lstep l c c' ->
  isUsingDedicatedThread (w_buffer c'.2) = isUsingDedicatedThread (w_buffer c.2) /\
  exists evs, w_trace c'.2 = w_trace c.2 ++ evs.
Proof.
  intros Hstep. destruct Hstep; cbn [fst snd].
  - match goal with H : deliver _ _ _ = _ |- _ =>
      destruct (deliver_frame _ _ _ _ H) as (_ & Hfl & Htr) end.
    split; assumption.
  - split; [reflexivity |]. eexists. reflexivity.
  - match goal with H : deliver _ _ _ = _ |- _ =>
      destruct (deliver_frame _ _ _ _ H) as (_ & Hfl & Htr) end.
    split; assumption.
  - match goal with H : dtor_stop _ _ = _ |- _ => revert H end.
    unfold dtor_stop, executor_cancel, ret.
    destruct (spin_thread_ l); [destruct (executor_ l) |];
      intros Heq; injection Heq as <-; cbn;
      (split; [reflexivity |]); eexists;
      try reflexivity; symmetry; apply app_nil_r.
  - match goal with H : dtor_join _ _ = _ |- _ => revert H end.
    unfold dtor_join, thread_join.
    destruct (spin_thread_ l); [destruct (dedicated_listener_thread_ l) as [t |] |].
    + destruct (w_threads w !! t) as [th |]; [| discriminate].
      destruct (th_finished th); [| discriminate].
      intros Heq. injection Heq as <-. cbn.
      split; [reflexivity |]. eexists. reflexivity.
    + intros Heq. injection Heq as <-.
      split; [reflexivity |]. exists []. symmetry. apply app_nil_r.
    + intros Heq. injection Heq as <-.
      split; [reflexivity |]. exists []. symmetry. apply app_nil_r.
Qed.

Lemma lsteps_flag (l : TransformListener) (c c' : Phase * World B) :
  rtc (lstep l) c c' ->
  isUsingDedicatedThread (w_buffer c'.2) = isUsingDedicatedThread (w_buffer c.2).
Proof.
  induction 1 as [| c1 c2 c3 Hstep _ IH]; [reflexivity |].
  rewrite IH. apply (lstep_frame _ _ _ Hstep).
Qed.

(** In external mode no step touches the threads. *)
Lemma lstep_threads_external (l : TransformListener) (c c' : Phase * World B) :
  spin_thread_ l = false ->
  dedicated_listener_thread_ l = None ->
  lstep l c c' ->
  w_threads c'.2 = w_threads c.2.
Proof.
  intros Hspin Hnone Hstep. destruct Hstep; cbn [fst snd]; try congruence.
  - match goal with H : deliver _ _ _ = _ |- _ =>
      destruct (deliver_frame _ _ _ _ H) as (Hsame & _) end.
    apply Hsame.
  - match goal with H : dtor_stop _ _ = _ |- _ => revert H end.
    unfold dtor_stop. rewrite Hspin. unfold ret.
    intros Heq. injection Heq as <-. reflexivity.
  - match goal with H : dtor_join _ _ = _ |- _ => revert H end.
    unfold dtor_join. rewrite Hspin.
    intros Heq. injection Heq as <-. reflexivity.
Qed.

Lemma lsteps_threads_external (l : TransformListener) (c c' : Phase * World B) :
  spin_thread_ l = false ->
  dedicated_listener_thread_ l = None ->
  rtc (lstep l) c c' ->
  w_threads c'.2 = w_threads c.2.
Proof.
  intros Hspin Hnone. induction 1 as [| c1 c2 c3 Hstep _ IH]; [reflexivity |].
  rewrite IH. apply (lstep_threads_external _ _ _ Hspin Hnone Hstep).
Qed.

Section Dedicated.

Variables (l : TransformListener) (t e : nat).
Hypothesis Hspin : spin_thread_ l = true.
Hypothesis Hthread : dedicated_listener_thread_ l = Some t.
Hypothesis Hexec : executor_ l = Some e.

(** Every step keeps the invariant of a dedicated listener. *)
Lemma lstep_dedicated_inv (c c' : Phase * World B) :
  dedicated_inv t e c -> lstep l c c' -> dedicated_inv t e c'.
Proof.
  intros (th & ex & Hth & Hbody & Hex & Hcancel & Hfin & Hdes) Hstep.
  destruct Hstep; unfold dedicated_inv; cbn [fst snd] in *.
  - (* a callback on the background thread *)
    match goal with H : deliver _ _ _ = _ |- _ =>
      destruct (deliver_frame _ _ _ _ H)
        as ((_ & _ & Hexs & Hths & _) & _ & evs & Htr) end.
    assert (t0 = t) as -> by congruence.
    assert (th0 = th) as -> by congruence.
    exists th, ex. rewrite Hths, Hexs, Htr.
    split; [assumption |]. split; [assumption |]. split; [assumption |].
    split; [assumption |].
    split.
    + intros Hf. destruct (Hfin Hf) as [Hc Hin].
      split; [assumption |]. apply elem_of_app. left. exact Hin.
    + intros Hp. destruct (Hdes Hp) as (Hf & _). congruence.
  - (* the body of the background thread returns *)
    assert (t0 = t) as -> by congruence.
    assert (th0 = th) as -> by congruence.
    assert (e0 = e) as -> by congruence.
    assert (ex0 = ex) as -> by congruence.
    exists {| th_body := th_body th; th_finished := true;
              th_joined := th_joined th |}, ex.
    unfold thread_exit. cbn.
    split; [rewrite list_lookup_alter_eq, Hth; reflexivity |].
    split; [assumption |]. split; [assumption |].
    split; [assumption |].
    split.
    + intros _. split; [assumption |].
      apply elem_of_app. right. apply list_elem_of_singleton. reflexivity.
    + intros Hp. destruct (Hdes Hp) as (Hf & _). congruence.
  - congruence.
  - (* the destructor cancels the executor *)
    match goal with H : dtor_stop _ _ = _ |- _ => revert H end.
    unfold dtor_stop. rewrite Hspin, Hexec. unfold executor_cancel.
    intros Heq. injection Heq as <-. cbn.
    exists th, {| ex_callback_groups := ex_callback_groups ex;
                  ex_cancelled := true |}.
    split; [assumption |]. split; [assumption |].
    split; [rewrite list_lookup_alter_eq, Hex; reflexivity |].
    split; [reflexivity |].
    split.
    + intros Hf. destruct (Hfin Hf) as [_ Hin].
      split; [reflexivity |]. apply elem_of_app. left. exact Hin.
    + discriminate.
  - (* the destructor joins the thread *)
    match goal with H : dtor_join _ _ = _ |- _ => revert H end.
    unfold dtor_join. rewrite Hspin, Hthread. unfold thread_join.
    rewrite Hth. destruct (th_finished th) eqn:Hf; [| discriminate].
    intros Heq. injection Heq as <-. cbn.
    destruct (Hfin eq_refl) as [Hc Hin].
    exists {| th_body := th_body th; th_finished := true; th_joined := true |}, ex.
    split.
    { apply list_lookup_insert_eq. eapply lookup_lt_Some. exact Hth. }
    split; [assumption |]. split; [assumption |].
    split; [intros _; assumption |].
    split.
    + intros _. split; [assumption |]. apply elem_of_app. left. exact Hin.
    + intros _. split; [reflexivity |]. split; [reflexivity |].
      eexists. reflexivity.
Qed.

Lemma lsteps_dedicated_inv (c c' : Phase * World B) :
  rtc (lstep l) c c' -> dedicated_inv t e c -> dedicated_inv t e c'.
Proof.
  induction 1 as [| c1 c2 c3 Hstep _ IH]; [trivial |].
  intros Hinv. apply IH. eapply lstep_dedicated_inv; eassumption.
Qed.

(** Once the destructor has returned, no step is left. *)
Lemma destroyed_is_final (w : World B) (c : Phase * World B) :
  dedicated_inv t e (Destroyed, w) -> lstep l (Destroyed, w) c -> False.
Proof.
  intros (th & ex & Hth & _ & _ & _ & _ & Hdes) Hstep.
  destruct (Hdes eq_refl) as (Hf & _). cbn [fst snd] in *.
  inversion Hstep; subst; congruence.
Qed.

End Dedicated.

End LifeFacts.

(** ** The construction in dedicated mode, step by step *)

Section ConstructionFacts.

Context {B : Type} `{BA : BufferAdapter B}.

(** Events that neither tell the buffer of a dedicated thread nor start a
    thread. *)
Lemma count_events_quiet (p : Event -> bool) (evs : list Event) :
  Forall (fun ev => p ev = false) evs -> count_events p evs = 0.
Proof.
  unfold count_events. induction 1 as [| ev evs Hev _ IH]; [reflexivity |].
  cbn. rewrite Hev. exact IH.
Qed.

(** What a callback adds to the trace are [insertTransform] calls and
    diagnostics, nothing else. *)
Lemma subscription_callback_events (msg : TFMessage) (is_static : bool) :
  forall w : World B,
  exists w' evs,
    subscription_callback msg is_static w = Returned tt w' /\
    w_trace w' = w_trace w ++ evs /\
    Forall (fun ev => is_insert_transform ev = true \/ is_diagnostic ev = true) evs.
Proof.
  induction msg as [| a rest IH]; intros w.
  - exists w, []. cbn. rewrite app_nil_r. repeat split. constructor.
  - cbn [subscription_callback].
    unfold bind at 1. unfold buffer_insertTransform at 1.
    destruct (insertTransform a is_static (w_buffer w)) as [r b'].
    cbn [fst snd].
    destruct r as [| reason].
    + unfold bind at 1. unfold ret at 1.
      destruct (IH (log (EvInsertTransform a is_static InsertOk) (set_buffer b' w)))
        as (w' & evs & Hrun & Htr & Hevs).
      exists w', (EvInsertTransform a is_static InsertOk :: evs).
      split; [exact Hrun |].
      split; [rewrite Htr; cbn; rewrite <- app_assoc; reflexivity |].
      constructor; [left; reflexivity | exact Hevs].
    + unfold bind at 1. unfold log_error at 1.
      destruct (IH (log (EvLogError a reason)
                      (log (EvInsertTransform a is_static (InsertError reason))
                         (set_buffer b' w))))
        as (w' & evs & Hrun & Htr & Hevs).
      exists w', (EvInsertTransform a is_static (InsertError reason)
                  :: EvLogError a reason :: evs).
      split; [exact Hrun |].
      split; [rewrite Htr; cbn; rewrite <- !app_assoc; reflexivity |].
      constructor; [left; reflexivity |].
      constructor; [right; reflexivity | exact Hevs].
Qed.

Lemma deliver_events (s : nat) (msg : TFMessage) (w w' : World B) :
  deliver s msg w = Returned tt w' ->
  exists evs,
    w_trace w' = w_trace w ++ evs /\
    Forall (fun ev => is_set_dedicated ev = false) evs /\
    Forall (fun ev => is_thread_start ev = false) evs.
Proof.
  unfold deliver.
  destruct (w_subscriptions w !! s) as [sub |].
  - destruct (sub_callback sub) as [is_static]. cbn [invoke].
    destruct (subscription_callback_events msg is_static w)
      as (w1 & evs & Hrun & Htr & Hevs).
    rewrite Hrun. intros Heq. injection Heq as <-.
    exists evs. split; [exact Htr |].
    split; eapply Forall_impl; try exact Hevs;
      intros ev [Hev | Hev]; destruct ev; try discriminate; reflexivity.
  - intros Heq. injection Heq as <-.
    exists []. rewrite app_nil_r. repeat split; constructor.
Qed.

(** A step of the background thread while the owner of the listener does
    not destroy it: the flag is kept, and what is added to the trace neither
    tells the buffer nor starts a thread. *)
Lemma lstep_alive_quiet (l : TransformListener) (w w' : World B) :
  lstep l (Alive, w) (Alive, w') ->
  isUsingDedicatedThread (w_buffer w') = isUsingDedicatedThread (w_buffer w) /\
  exists evs,
    w_trace w' = w_trace w ++ evs /\
    Forall (fun ev => is_set_dedicated ev = false) evs /\
    Forall (fun ev => is_thread_start ev = false) evs.
Proof.
  intros Hstep.
  split; [exact (proj1 (lstep_frame _ _ _ Hstep)) |].
  inversion Hstep; subst.
  - eapply deliver_events. eassumption.
  - exists [EvThreadExit t]. cbn.
    repeat split; repeat constructor.
  - eapply deliver_events. eassumption.
Qed.

Variables (this : TransformListener).
Variables (node_base node_logging node_parameters node_topics : NodeHandle).
Variables (qos static_qos : QoS) (options static_options : SubscriptionOptions).
Variable (tf_ns : string).

(** The two pieces of the dedicated branch, run one after the other, are
    [init]. *)
Lemma init_dedicated_cut (w : World B) :
  init this node_base node_logging node_parameters node_topics
       true qos static_qos options static_options tf_ns w
  = bind
      (init_dedicated_until_thread this
         node_base node_logging node_parameters node_topics
         qos static_qos options static_options tf_ns)
      init_dedicated_tell_buffer w.
Proof.
  unfold init, init_dedicated_until_thread, init_dedicated_tell_buffer, bind,
    create_callback_group, create_subscription, make_SingleThreadedExecutor,
    add_callback_group, make_thread, buffer_setUsingDedicatedThread, ret, log,
    set_groups, set_subscriptions, set_executors, set_threads, set_buffer.
  cbn.
  destruct (bind_fails (w_faults w) (tf_ns +:+ "/tf")); [reflexivity |].
  cbn. rewrite lookup_snoc_length. cbn.
  destruct (bind_fails (w_faults w) (tf_ns +:+ "/tf_static")); [reflexivity |].
  cbn. rewrite insert_snoc_length, lookup_snoc_length. cbn.
  destruct (thread_start_fails (w_faults w)); reflexivity.
Qed.

(** What the constructing thread has done when the background thread
    starts: five calls and the start of the thread; the buffer is as it
    was. *)
Lemma init_dedicated_until_thread_returned (w w1 : World B) (this1 : TransformListener) :
  init_dedicated_until_thread this
    node_base node_logging node_parameters node_topics
    qos static_qos options static_options tf_ns w = Returned this1 w1 ->
  let g := length (w_groups w) in
  let s := length (w_subscriptions w) in
  let e := length (w_executors w) in
  let t := length (w_threads w) in
  w_buffer w1 = w_buffer w /\
  dedicated_listener_thread_ this1 = Some t /\
  w_trace w1 =
    w_trace w ++
    [EvCreateCallbackGroup g MutuallyExclusive false;
     EvCreateSubscription s (tf_ns +:+ "/tf")
       (bind_subscription_callback false) (Some g);
     EvCreateSubscription (S s) (tf_ns +:+ "/tf_static")
       (bind_subscription_callback true) (Some g);
     EvMakeExecutor e;
     EvAddCallbackGroup e g] ++
    [EvThreadStart t (spin_executor e)].
Proof.
  unfold init_dedicated_until_thread, bind,
    create_callback_group, create_subscription, make_SingleThreadedExecutor,
    add_callback_group, make_thread, ret, log,
    set_groups, set_subscriptions, set_executors, set_threads.
  cbn.
  destruct (bind_fails (w_faults w) (tf_ns +:+ "/tf")); [discriminate |].
  cbn. rewrite lookup_snoc_length. cbn.
  destruct (bind_fails (w_faults w) (tf_ns +:+ "/tf_static")); [discriminate |].
  cbn. rewrite insert_snoc_length, lookup_snoc_length. cbn.
  destruct (thread_start_fails (w_faults w)); [discriminate |].
  intros Heq. injection Heq as <- <-. cbn.
  rewrite length_app. cbn.
  replace (length (w_subscriptions w) + 1) with (S (length (w_subscriptions w))) by lia.
  rewrite <- !app_assoc. cbn.
  repeat split.
Qed.

End ConstructionFacts.

Section ConstructionRuns.

Context {B : Type} `{BA : BufferAdapter B}.

Variables (node_base node_logging node_parameters node_topics : NodeHandle).
Variables (qos static_qos : QoS) (options static_options : SubscriptionOptions).

Abbreviation construction :=
  (cstep node_base node_logging node_parameters node_topics
     qos static_qos options static_options).

(** Nothing follows the return of the constructor. *)
Lemma constructed_is_final (l : TransformListener) (w : World B)
    (c : CtorPhase * World B) :
  rtc construction (Constructed l, w) c -> c = (Constructed l, w).
Proof.
  intros Hrun. inversion Hrun as [| c1 c2 c3 Hstep _]; [reflexivity |].
  inversion Hstep.
Qed.

(** From the start of the thread to the return of the constructor: steps
    of the background thread, then the call that tells the buffer. *)
Lemma construction_after_thread_start (c c' : CtorPhase * World B) :
  rtc construction c c' ->
  forall (this l : TransformListener) (w1 w' : World B),
    c = (ThreadStarted this, w1) ->
    c' = (Constructed l, w') ->
    l = this /\
    isUsingDedicatedThread (w_buffer w') = true /\
    exists during,
      w_trace w' = w_trace w1 ++ during ++ [EvSetUsingDedicatedThread true] /\
      Forall (fun ev => is_set_dedicated ev = false) during /\
      Forall (fun ev => is_thread_start ev = false) during.
Proof.
  induction 1 as [c | c1 c2 c3 Hstep Hrest IH]; intros this l w1 w' Hc Hc'.
  - subst c. discriminate.
  - subst c1 c3. inversion Hstep as [| this0 v v' Hbg | this0 v l0 v' Htell]; subst.
    + destruct (IH this l v' w' eq_refl eq_refl) as (-> & Hflag & during & Htr & Hq & Hq').
      destruct (lstep_alive_quiet _ _ _ Hbg) as (_ & evs & Hevs & He & He').
      split; [reflexivity |]. split; [exact Hflag |].
      exists (evs ++ during).
      split; [rewrite Htr, Hevs, <- !app_assoc; reflexivity |].
      split; apply Forall_app; split; assumption.
    + apply constructed_is_final in Hrest. injection Hrest as <- <-.
      unfold init_dedicated_tell_buffer, bind, buffer_setUsingDedicatedThread, ret
        in Htell.
      injection Htell as <- <-. cbn.
      split; [reflexivity |]. split; [apply flag_after_set |].
      exists []. repeat split; constructor.
Qed.

(** The constructor, run in one piece, is one of these runs: the one in
    which the background thread does nothing before the buffer is told. *)
Lemma ctor_is_a_construction (w w' : World B) (l : TransformListener) :
  TransformListener_ctor
    node_base node_logging node_parameters node_topics
    true qos static_qos options static_options w = Returned l w' ->
  rtc construction (NotStarted, w) (Constructed l, w').
Proof.
  unfold TransformListener_ctor. rewrite init_dedicated_cut.
  unfold bind at 1.
  destruct (init_dedicated_until_thread TransformListener_members
              node_base node_logging node_parameters node_topics
              qos static_qos options static_options "" w)
    as [this1 w1 | e w1] eqn:Hstart; [| discriminate].
  intros Htell.
  eapply rtc_l; [apply cstep_start; exact Hstart |].
  eapply rtc_l; [apply cstep_tell_buffer; exact Htell |].
  apply rtc_refl.
Qed.

End ConstructionRuns.

(** ** The listener among others *)

Section LifeAmongOthers.

Context {B : Type} `{BA : BufferAdapter B}.

Lemma life_steps_flag (l : TransformListener) (c c' : Phase * World B) :
  rtc (life_step l) c c' ->
  isUsingDedicatedThread (w_buffer c'.2) = isUsingDedicatedThread (w_buffer c.2).
Proof.
  induction 1 as [| c1 c2 c3 Hstep _ IH]; [reflexivity |].
  rewrite IH. destruct Hstep as [Hown | [_ Hother]].
  - apply (lstep_frame _ _ _ Hown).
  - exact Hother.
Qed.

End LifeAmongOthers.

(* ===================================================================== *)
(** * The statements of the specification *)
(* ===================================================================== *)

(** Running the listener on a concrete node. *)
Ltac run := vm_compute; reflexivity.

(** ** The scenarios of the specification, run *)

(** External mode, the callback invoked with a batch of three announcements
    of which one is malformed: two successful inserts and one diagnostic. *)
Example external_batch3_counts :
  count_events is_successful_insert (w_trace Scenario.w_external_batch) = 2 /\
  count_events is_diagnostic (w_trace Scenario.w_external_batch) = 1 /\
  frames_ (w_buffer Scenario.w_external_batch)
    = [(Scenario.base_odom, false); (Scenario.odom_robot, false)].
Proof. repeat split. Qed.

(** Dedicated mode on a plain node: the calls of the construction, in
    order. *)
Example dedicated_trace :
  w_trace Scenario.w_dedicated =
    [EvCreateCallbackGroup 1 MutuallyExclusive false;
     EvCreateSubscription 0 "/tf" (bind_subscription_callback false) (Some 1);
     EvCreateSubscription 1 "/tf_static" (bind_subscription_callback true) (Some 1);
     EvMakeExecutor 0;
     EvAddCallbackGroup 0 1;
     EvThreadStart 0 (spin_executor 0);
     EvSetUsingDedicatedThread true].
Proof. reflexivity. Qed.

(** The join cannot be taken while the thread body runs. *)
Example join_blocks_while_running :
  dtor_join Scenario.l_dedicated Scenario.w_dedicated_stopping = None.
Proof. reflexivity. Qed.

(** A topic that cannot be bound: the constructor throws, in either mode. *)
Example refused_static_topic_throws :
  forall spin_thread : bool,
    exists w',
      TransformListener_ctor_node (B := BufferCore) 0 spin_thread
        Scenario.qos Scenario.static_qos
        detail.get_default_transform_listener_sub_options
        detail.get_default_transform_listener_static_sub_options
        (Scenario.node
           {| bind_fails := String.eqb "/tf_static"; thread_start_fails := false |}
           BufferCore_new)
      = Thrown (RCLError "/tf_static") w'.
Proof. intros [|]; eexists; run. Qed.

(** C10.  The default options for the dynamic topic allow exactly Depth,
    Durability, History and Reliability to be overridden; those for the
    static topic allow exactly Depth, History and Reliability, so the
    Durability of the static subscription cannot be overridden under the
    defaults; the dynamic default options disable intra-process delivery
    too. *)
Theorem default_options_overridable_policies :
  (forall k : QosPolicyKind,
      overridable k detail.get_default_transform_listener_sub_options = true <->
      k = Depth \/ k = Durability \/ k = History \/ k = Reliability) /\
  (forall k : QosPolicyKind,
      overridable k detail.get_default_transform_listener_static_sub_options = true <->
      k = Depth \/ k = History \/ k = Reliability) /\
  overridable Durability detail.get_default_transform_listener_static_sub_options
    = false /\
  use_intra_process_comm detail.get_default_transform_listener_sub_options = Disable.
Proof.
  split; [| split; [| split; reflexivity]].
  - intros k. destruct k; cbn; split; intros Hk;
      try discriminate; try reflexivity; auto;
      destruct Hk as [Hk | [Hk | [Hk | Hk]]]; discriminate.
  - intros k. destruct k; cbn; split; intros Hk;
      try discriminate; try reflexivity; auto;
      destruct Hk as [Hk | [Hk | Hk]]; discriminate.
Qed.

(** C9.  The default options for the static topic disable intra-process
    delivery, and so does the static subscription of a listener that was
    constructed with the default options: [init] copies them and changes the
    callback group only. *)
Theorem static_default_options_disable_intra_process :
  forall (B : Type) (BA : BufferAdapter B)
         (node_base node_logging node_parameters node_topics : NodeHandle)
         (qos static_qos : QoS) (w w' : World B) (l : TransformListener),
    TransformListener_ctor_default
      node_base node_logging node_parameters node_topics qos static_qos w
    = Returned l w' ->
    use_intra_process_comm detail.get_default_transform_listener_static_sub_options
      = Disable /\
    exists s sub,
      message_subscription_tf_static_ l = Some s /\
      w_subscriptions w' !! s = Some sub /\
      sub_topic sub = "/tf_static" /\
      use_intra_process_comm (sub_options sub) = Disable.
Proof.
  intros B BA nb nl np nt q sq w w' l Hctor.
  split; [reflexivity |].
  unfold TransformListener_ctor_default, TransformListener_ctor in Hctor.
  apply init_returned_subscriptions in Hctor.
  destruct Hctor as (o & o' & evs & Hsubs & _ & Hst & _ & -> & _).
  eexists _, _. split; [exact Hst |].
  split; [rewrite Hsubs; apply lookup_two_snd |].
  split; reflexivity.
Qed.

Lemma static_default_options_disable_intra_process_witness :
  exists l w',
    TransformListener_ctor_default 0 0 0 0 Scenario.qos Scenario.static_qos Scenario.w0
    = Returned l w' /\
    (use_intra_process_comm detail.get_default_transform_listener_static_sub_options
       = Disable /\
     exists s sub,
       message_subscription_tf_static_ l = Some s /\
       w_subscriptions w' !! s = Some sub /\
       sub_topic sub = "/tf_static" /\
       use_intra_process_comm (sub_options sub) = Disable).
Proof.
  eexists _, _. split; [run |].
  eapply (static_default_options_disable_intra_process
            BufferCore BufferCore_adapter 0 0 0 0
            Scenario.qos Scenario.static_qos Scenario.w0).
  run.
Defined.



(** C1.  The callback [init] registers for the dynamic topic has the flag
    [false] bound, the one for the static topic the flag [true]; whenever a
    batch is handed to either subscription, in whatever state, the callback
    returns after calling [insertTransform] once for each announcement of the
    batch, in arrival order, with the bound flag, whatever the
    announcements are. *)
Theorem callbacks_insert_with_bound_flag :
  forall (B : Type) (BA : BufferAdapter B)
         (node_base node_logging node_parameters node_topics : NodeHandle)
         (spin_thread : bool) (qos static_qos : QoS)
         (options static_options : SubscriptionOptions)
         (w w' : World B) (l : TransformListener),
    TransformListener_ctor
      node_base node_logging node_parameters node_topics
      spin_thread qos static_qos options static_options w = Returned l w' ->
    exists s s' sub sub',
      message_subscription_tf_ l = Some s /\
      w_subscriptions w' !! s = Some sub /\
      sub_topic sub = "/tf" /\
      sub_callback sub = bind_subscription_callback false /\
      message_subscription_tf_static_ l = Some s' /\
      w_subscriptions w' !! s' = Some sub' /\
      sub_topic sub' = "/tf_static" /\
      sub_callback sub' = bind_subscription_callback true /\
      forall (msg : TFMessage) (w1 : World B),
        w_subscriptions w1 !! s = Some sub ->
        w_subscriptions w1 !! s' = Some sub' ->
        (exists w2 evs,
            deliver s msg w1 = Returned tt w2 /\
            w_trace w2 = w_trace w1 ++ evs /\
            (insert_calls evs).*1 = map (fun a => (a, false)) msg) /\
        (exists w2 evs,
            deliver s' msg w1 = Returned tt w2 /\
            w_trace w2 = w_trace w1 ++ evs /\
            (insert_calls evs).*1 = map (fun a => (a, true)) msg).
Proof.
  intros B BA nb nl np nt spin q sq o so w w' l Hctor.
  unfold TransformListener_ctor in Hctor.
  apply init_returned_subscriptions in Hctor.
  destruct Hctor as (o1 & o2 & evs & Hsubs & Htf & Hst & _ & _ & _ & _).
  eexists _, _, _, _.
  split; [exact Htf |].
  split; [rewrite Hsubs; apply lookup_two_fst |].
  split; [reflexivity |]. split; [reflexivity |].
  split; [exact Hst |].
  split; [rewrite Hsubs; apply lookup_two_snd |].
  split; [reflexivity |]. split; [reflexivity |].
  intros msg w1 Hs Hs'. split.
  - destruct (deliver_spec _ _ msg w1 Hs) as (w2 & evs' & Hrun & Htr & _ & _ & Hcalls).
    exists w2, evs'. repeat split; assumption.
  - destruct (deliver_spec _ _ msg w1 Hs') as (w2 & evs' & Hrun & Htr & _ & _ & Hcalls).
    exists w2, evs'. repeat split; assumption.
Qed.

Lemma callbacks_insert_with_bound_flag_witness :
  exists l w',
    TransformListener_ctor (B := BufferCore) 0 0 0 0 false
      Scenario.qos Scenario.static_qos
      detail.get_default_transform_listener_sub_options
      detail.get_default_transform_listener_static_sub_options Scenario.w0
    = Returned l w' /\
    exists s s' sub sub',
      message_subscription_tf_ l = Some s /\
      w_subscriptions w' !! s = Some sub /\
      sub_topic sub = "/tf" /\
      sub_callback sub = bind_subscription_callback false /\
      message_subscription_tf_static_ l = Some s' /\
      w_subscriptions w' !! s' = Some sub' /\
      sub_topic sub' = "/tf_static" /\
      sub_callback sub' = bind_subscription_callback true /\
      forall (msg : TFMessage) (w1 : World BufferCore),
        w_subscriptions w1 !! s = Some sub ->
        w_subscriptions w1 !! s' = Some sub' ->
        (exists w2 evs,
            deliver s msg w1 = Returned tt w2 /\
            w_trace w2 = w_trace w1 ++ evs /\
            (insert_calls evs).*1 = map (fun a => (a, false)) msg) /\
        (exists w2 evs,
            deliver s' msg w1 = Returned tt w2 /\
            w_trace w2 = w_trace w1 ++ evs /\
            (insert_calls evs).*1 = map (fun a => (a, true)) msg).
Proof.
  eexists _, _. split; [run |].
  eapply (callbacks_insert_with_bound_flag
            BufferCore BufferCore_adapter 0 0 0 0 false
            Scenario.qos Scenario.static_qos
            detail.get_default_transform_listener_sub_options
            detail.get_default_transform_listener_static_sub_options
            Scenario.w0).
  run.
Defined.

(** C4.  With a buffer whose [insertTransform] fails on the malformed
    announcements and on no other, a batch of N announcements of which
    exactly one is malformed is processed to its end: the callback returns,
    it has called [insertTransform] for each of the N announcements in
    arrival order, N-1 of the calls have succeeded, and one diagnostic has
    been emitted. *)
Theorem one_malformed_entry_does_not_abort_the_batch :
  forall (B : Type) (BA : BufferAdapter B) (mal : TransformAnnouncement -> bool)
         (msg : TFMessage) (is_static : bool) (w : World B),
    (forall a st b, is_ok (fst (insertTransform a st b)) = negb (mal a)) ->
    length (List.filter mal msg) = 1 ->
    exists w' evs,
      subscription_callback msg is_static w = Returned tt w' /\
      w_trace w' = w_trace w ++ evs /\
      (insert_calls evs).*1 = map (fun a => (a, is_static)) msg /\
      count_events is_successful_insert evs = length msg - 1 /\
      count_events is_diagnostic evs = 1 /\
      1 <= count_events is_diagnostic evs.
Proof.
  intros B BA mal msg is_static w Hmal Hone.
  destruct (subscription_callback_spec msg is_static w)
    as (w' & evs & Hrun & Htr & _ & _ & Hcalls & Hcnt & _ & Hdiag).
  specialize (Hdiag mal Hmal). rewrite Hone in Hdiag.
  exists w', evs. repeat split; try assumption; lia.
Qed.

Lemma one_malformed_entry_does_not_abort_the_batch_witness :
  (forall a st (b : BufferCore),
      is_ok (fst (insertTransform a st b)) = negb (malformed a)) /\
  length (List.filter malformed Scenario.batch3) = 1 /\
  exists w' evs,
    subscription_callback Scenario.batch3 false Scenario.w0 = Returned tt w' /\
    w_trace w' = w_trace Scenario.w0 ++ evs /\
    (insert_calls evs).*1 = map (fun a => (a, false)) Scenario.batch3 /\
    count_events is_successful_insert evs = length Scenario.batch3 - 1 /\
    count_events is_diagnostic evs = 1 /\
    1 <= count_events is_diagnostic evs.
Proof.
  assert (Hmal : forall a st (b : BufferCore),
             is_ok (fst (insertTransform a st b)) = negb (malformed a)).
  { intros a st b. cbn. unfold BufferCore_insertTransform.
    destruct (malformed a); reflexivity. }
  split; [exact Hmal |].
  split; [reflexivity |].
  apply (one_malformed_entry_does_not_abort_the_batch
           BufferCore BufferCore_adapter malformed Scenario.batch3 false Scenario.w0
           Hmal).
  reflexivity.
Defined.

(** C5.  Constructed with [spin_thread = true], the listener has created
    one callback group, mutually exclusive and not added to an executor with
    the node, whose members are exactly the two new subscriptions; one
    single-threaded executor to which that group and no other was added; and
    one thread, running that executor's [spin()].  The groups, executors and
    threads that were there before are as they were. *)
Theorem dedicated_mode_creates_group_executor_thread :
  forall (B : Type) (BA : BufferAdapter B)
         (node_base node_logging node_parameters node_topics : NodeHandle)
         (qos static_qos : QoS) (options static_options : SubscriptionOptions)
         (w w' : World B) (l : TransformListener),
    TransformListener_ctor
      node_base node_logging node_parameters node_topics
      true qos static_qos options static_options w = Returned l w' ->
    exists g s s' e t evs,
      callback_group_ l = Some g /\
      message_subscription_tf_ l = Some s /\
      message_subscription_tf_static_ l = Some s' /\
      executor_ l = Some e /\
      dedicated_listener_thread_ l = Some t /\
      s = length (w_subscriptions w) /\ s' = S s /\
      length (w_subscriptions w') = S s' /\
      w_groups w' =
        w_groups w ++
        [{| cg_type := MutuallyExclusive;
            cg_automatically_add_to_executor_with_node := false;
            cg_subscriptions := [s; s'] |}] /\
      w_groups w' !! g =
        Some {| cg_type := MutuallyExclusive;
                cg_automatically_add_to_executor_with_node := false;
                cg_subscriptions := [s; s'] |} /\
      w_executors w' =
        w_executors w ++ [{| ex_callback_groups := [g]; ex_cancelled := false |}] /\
      w_executors w' !! e =
        Some {| ex_callback_groups := [g]; ex_cancelled := false |} /\
      w_threads w' =
        w_threads w ++
        [{| th_body := spin_executor e; th_finished := false; th_joined := false |}] /\
      w_threads w' !! t =
        Some {| th_body := spin_executor e; th_finished := false;
                th_joined := false |} /\
      w_trace w' = w_trace w ++ evs /\
      count_events is_create_callback_group evs = 1 /\
      count_events is_make_executor evs = 1 /\
      count_events is_thread_start evs = 1.
Proof.
  intros B BA nb nl np nt q sq o so w w' l Hctor.
  unfold TransformListener_ctor in Hctor.
  destruct (init_dedicated_returned_inv _ _ _ _ _ _ _ _ _ _ _ _ _ Hctor)
    as (Htf & Hst & Hth).
  rewrite (init_dedicated_returns _ _ _ _ _ _ _ _ _ _ w Htf Hst Hth) in Hctor.
  injection Hctor as <- <-. cbn.
  eexists _, _, _, _, _, _.
  repeat split; try reflexivity.
  - rewrite length_app. cbn. lia.
  - apply lookup_snoc_length.
  - apply lookup_snoc_length.
  - apply lookup_snoc_length.
Qed.

Lemma dedicated_mode_creates_group_executor_thread_witness :
  exists l w',
    TransformListener_ctor (B := BufferCore) 0 0 0 0 true
      Scenario.qos Scenario.static_qos
      detail.get_default_transform_listener_sub_options
      detail.get_default_transform_listener_static_sub_options Scenario.w0
    = Returned l w' /\
    length (w_groups w') = 2 /\
    w_groups w' !! 1 =
      Some {| cg_type := MutuallyExclusive;
              cg_automatically_add_to_executor_with_node := false;
              cg_subscriptions := [0; 1] |} /\
    w_executors w' = [{| ex_callback_groups := [1]; ex_cancelled := false |}] /\
    w_threads w' =
      [{| th_body := spin_executor 0; th_finished := false; th_joined := false |}].
Proof.
  eexists _, _. split; [run |].
  destruct (dedicated_mode_creates_group_executor_thread
              BufferCore BufferCore_adapter 0 0 0 0
              Scenario.qos Scenario.static_qos
              detail.get_default_transform_listener_sub_options
              detail.get_default_transform_listener_static_sub_options
              Scenario.w0 _ _ ltac:(run))
    as (g & s & s' & e & t & evs & Hg & _ & _ & He & _ & -> & -> & _
        & Hgroups & _ & Hexecs & _ & Hthreads & _).
  injection Hg as <-. injection He as <-.
  rewrite Hgroups, Hexecs, Hthreads.
  repeat split.
Defined.

(** C7.  When the middleware refuses to bind "/tf" or "/tf_static", or, in
    dedicated mode, when no thread can be started, the constructor throws:
    the caller gets the exception and no listener object.  The buffer has
    not been told of a dedicated thread and no thread is left behind. *)
Theorem failed_bind_or_thread_start_fails_construction :
  forall (B : Type) (BA : BufferAdapter B)
         (node_base node_logging node_parameters node_topics : NodeHandle)
         (spin_thread : bool) (qos static_qos : QoS)
         (options static_options : SubscriptionOptions) (w : World B),
    bind_fails (w_faults w) "/tf" = true \/
    bind_fails (w_faults w) "/tf_static" = true \/
    (spin_thread = true /\ thread_start_fails (w_faults w) = true) ->
    exists e w',
      TransformListener_ctor
        node_base node_logging node_parameters node_topics
        spin_thread qos static_qos options static_options w = Thrown e w' /\
      w_buffer w' = w_buffer w /\
      w_threads w' = w_threads w.
Proof.
  intros B BA nb nl np nt spin q sq o so w Hfault.
  unfold TransformListener_ctor.
  destruct spin.
  - apply init_dedicated_throws. cbn.
    destruct Hfault as [H | [H | [_ H]]]; auto.
  - apply init_external_throws. cbn.
    destruct Hfault as [H | [H | [H _]]]; auto; discriminate.
Qed.

Lemma failed_bind_or_thread_start_fails_construction_witness :
  (bind_fails Scenario.no_threads "/tf" = true \/
   bind_fails Scenario.no_threads "/tf_static" = true \/
   (true = true /\ thread_start_fails Scenario.no_threads = true)) /\
  exists e w',
    TransformListener_ctor (B := BufferCore) 0 0 0 0 true
      Scenario.qos Scenario.static_qos
      detail.get_default_transform_listener_sub_options
      detail.get_default_transform_listener_static_sub_options
      (Scenario.node Scenario.no_threads BufferCore_new) = Thrown e w' /\
    w_buffer w' = BufferCore_new /\
    w_threads w' = [].
Proof.
  assert (Hfault : bind_fails Scenario.no_threads "/tf" = true \/
                   bind_fails Scenario.no_threads "/tf_static" = true \/
                   (true = true /\ thread_start_fails Scenario.no_threads = true)).
  { right. right. split; reflexivity. }
  split; [exact Hfault |].
  exact (failed_bind_or_thread_start_fails_construction
           BufferCore BufferCore_adapter 0 0 0 0 true
           Scenario.qos Scenario.static_qos
           detail.get_default_transform_listener_sub_options
           detail.get_default_transform_listener_static_sub_options
           (Scenario.node Scenario.no_threads BufferCore_new) Hfault).
Defined.

(** C2, as the code has it.  In dedicated mode the constructing thread
    starts the background thread (line 214) and only then tells the buffer
    (line 216); the background thread runs in between.  Along every run of
    the construction, with the background thread taking any number of steps
    before the buffer is told: [setUsingDedicatedThread(true)] is called
    exactly once, as the last call of the construction and after the one call
    that starts the thread; no [insertTransform] call is made before the
    thread is started; the flag is true when the constructor returns.  The
    constructor run in one piece is one of these runs. *)
Theorem dedicated_flag_set_once_after_thread_start :
  forall (B : Type) (BA : BufferAdapter B)
         (node_base node_logging node_parameters node_topics : NodeHandle)
         (qos static_qos : QoS) (options static_options : SubscriptionOptions)
         (w w' : World B) (l : TransformListener),
    rtc (cstep node_base node_logging node_parameters node_topics
           qos static_qos options static_options)
      (NotStarted, w) (Constructed l, w') ->
    (exists pre t e during,
        w_trace w' =
          w_trace w ++ pre ++ [EvThreadStart t (spin_executor e)] ++
          during ++ [EvSetUsingDedicatedThread true] /\
        dedicated_listener_thread_ l = Some t /\
        count_events is_set_dedicated pre = 0 /\
        count_events is_set_dedicated during = 0 /\
        count_events is_thread_start pre = 0 /\
        count_events is_thread_start during = 0 /\
        count_events is_set_dedicated
          (pre ++ [EvThreadStart t (spin_executor e)] ++
           during ++ [EvSetUsingDedicatedThread true]) = 1 /\
        insert_calls pre = []) /\
    isUsingDedicatedThread (w_buffer w') = true /\
    (forall (v v' : World B) (k : TransformListener),
        TransformListener_ctor
          node_base node_logging node_parameters node_topics
          true qos static_qos options static_options v = Returned k v' ->
        rtc (cstep node_base node_logging node_parameters node_topics
               qos static_qos options static_options)
          (NotStarted, v) (Constructed k, v')).
Proof.
  intros B BA nb nl np nt q sq o so w w' l Hrun.
  split; [| split].
  - inversion Hrun as [| c1 c2 c3 Hstep Hrest]; subst.
    inversion Hstep as [v this1 w1 Hstart | |]; subst.
    destruct (init_dedicated_until_thread_returned _ _ _ _ _ _ _ _ _ _ _ _ _ Hstart)
      as (_ & Hthread & Htr1).
    destruct (construction_after_thread_start _ _ _ _ _ _ _ _ _ _ Hrest
                this1 l w1 w' eq_refl eq_refl)
      as (-> & _ & during & Htr & Hq & Hq').
    rewrite Htr1 in Htr. rewrite <- !app_assoc in Htr.
    eexists _, _, _, during.
    split; [exact Htr |].
    split; [exact Hthread |].
    split; [reflexivity |].
    split; [apply count_events_quiet; exact Hq |].
    split; [reflexivity |].
    split; [apply count_events_quiet; exact Hq' |].
    split; [| reflexivity].
    rewrite !count_events_app, (count_events_quiet _ _ Hq). reflexivity.
  - inversion Hrun as [| c1 c2 c3 Hstep Hrest]; subst.
    inversion Hstep as [v this1 w1 Hstart | |]; subst.
    apply (construction_after_thread_start _ _ _ _ _ _ _ _ _ _ Hrest
             this1 l w1 w' eq_refl eq_refl).
  - intros v v' k. apply ctor_is_a_construction.
Qed.

Lemma dedicated_flag_set_once_after_thread_start_witness :
  rtc (cstep (B := BufferCore) 0 0 0 0 Scenario.qos Scenario.static_qos
         detail.get_default_transform_listener_sub_options
         detail.get_default_transform_listener_static_sub_options)
    (NotStarted, Scenario.w0)
    (Constructed Scenario.this_started, Scenario.w_constructed_late) /\
  isUsingDedicatedThread (w_buffer Scenario.w_constructed_late) = true /\
  count_events is_set_dedicated (w_trace Scenario.w_constructed_late) = 1 /\
  last (w_trace Scenario.w_constructed_late) = Some (EvSetUsingDedicatedThread true).
Proof.
  assert (Hrun :
    rtc (cstep (B := BufferCore) 0 0 0 0 Scenario.qos Scenario.static_qos
           detail.get_default_transform_listener_sub_options
           detail.get_default_transform_listener_static_sub_options)
      (NotStarted, Scenario.w0)
      (Constructed Scenario.this_started, Scenario.w_constructed_late)).
  { eapply rtc_l.
    { apply (cstep_start 0 0 0 0 Scenario.qos Scenario.static_qos
               detail.get_default_transform_listener_sub_options
               detail.get_default_transform_listener_static_sub_options
               Scenario.w0 Scenario.this_started Scenario.w_started).
      reflexivity. }
    eapply rtc_l.
    { apply (cstep_background 0 0 0 0 Scenario.qos Scenario.static_qos
               detail.get_default_transform_listener_sub_options
               detail.get_default_transform_listener_static_sub_options
               Scenario.this_started Scenario.w_started Scenario.w_started_batch).
      apply (step_spin Scenario.this_started Alive Scenario.w_started 0
               {| th_body := spin_executor 0; th_finished := false;
                  th_joined := false |}
               0 {| ex_callback_groups := [1]; ex_cancelled := false |}
               1 {| cg_type := MutuallyExclusive;
                    cg_automatically_add_to_executor_with_node := false;
                    cg_subscriptions := [0; 1] |}
               1 Scenario.batch3 Scenario.w_started_batch);
        try reflexivity.
      - apply list_elem_of_singleton. reflexivity.
      - apply list_elem_of_In. right. left. reflexivity. }
    eapply rtc_l; [| apply rtc_refl].
    apply (cstep_tell_buffer 0 0 0 0 Scenario.qos Scenario.static_qos
             detail.get_default_transform_listener_sub_options
             detail.get_default_transform_listener_static_sub_options
             Scenario.this_started Scenario.w_started_batch
             Scenario.this_started Scenario.w_constructed_late).
    reflexivity. }
  split; [exact Hrun |].
  destruct (dedicated_flag_set_once_after_thread_start
              BufferCore BufferCore_adapter 0 0 0 0
              Scenario.qos Scenario.static_qos
              detail.get_default_transform_listener_sub_options
              detail.get_default_transform_listener_static_sub_options
              _ _ _ Hrun)
    as ((pre & t & e & during & Htr & _ & _ & _ & _ & _ & Hcount & _) & Hflag & _).
  split; [exact Hflag |].
  split.
  - rewrite Htr. change (w_trace Scenario.w0) with (@nil Event).
    rewrite app_nil_l. exact Hcount.
  - rewrite Htr, !app_assoc. apply last_snoc.
Defined.

(** C2, as the claim has it, fails: there is a run of the construction on a
    plain node in which, after the thread has been started and before the
    buffer is told, the background thread has processed a batch (three
    [insertTransform] calls) while the flag is still false; in the trace of
    the finished construction the call that sets the flag comes neither
    before the start of the thread nor before these [insertTransform]
    calls. *)
Lemma flag_set_after_thread_start_and_first_message :
  rtc (cstep (B := BufferCore) 0 0 0 0 Scenario.qos Scenario.static_qos
         detail.get_default_transform_listener_sub_options
         detail.get_default_transform_listener_static_sub_options)
    (NotStarted, Scenario.w0)
    (ThreadStarted Scenario.this_started, Scenario.w_started_batch) /\
  isUsingDedicatedThread (w_buffer Scenario.w_started_batch) = false /\
  (insert_calls (w_trace Scenario.w_started_batch)).*1 =
    [(Scenario.base_odom, true); (Scenario.robot_robot, true);
     (Scenario.odom_robot, true)] /\
  cstep (B := BufferCore) 0 0 0 0 Scenario.qos Scenario.static_qos
    detail.get_default_transform_listener_sub_options
    detail.get_default_transform_listener_static_sub_options
    (ThreadStarted Scenario.this_started, Scenario.w_started_batch)
    (Constructed Scenario.this_started, Scenario.w_constructed_late) /\
  ~ precedes is_set_dedicated is_thread_start
      (w_trace Scenario.w_constructed_late) /\
  ~ precedes is_set_dedicated is_insert_transform
      (w_trace Scenario.w_constructed_late).
Proof.
  split.
  { eapply rtc_l.
    { apply (cstep_start 0 0 0 0 Scenario.qos Scenario.static_qos
               detail.get_default_transform_listener_sub_options
               detail.get_default_transform_listener_static_sub_options
               Scenario.w0 Scenario.this_started Scenario.w_started).
      reflexivity. }
    eapply rtc_l; [| apply rtc_refl].
    apply (cstep_background 0 0 0 0 Scenario.qos Scenario.static_qos
             detail.get_default_transform_listener_sub_options
             detail.get_default_transform_listener_static_sub_options
             Scenario.this_started Scenario.w_started Scenario.w_started_batch).
    apply (step_spin Scenario.this_started Alive Scenario.w_started 0
             {| th_body := spin_executor 0; th_finished := false;
                th_joined := false |}
             0 {| ex_callback_groups := [1]; ex_cancelled := false |}
             1 {| cg_type := MutuallyExclusive;
                  cg_automatically_add_to_executor_with_node := false;
                  cg_subscriptions := [0; 1] |}
             1 Scenario.batch3 Scenario.w_started_batch);
      try reflexivity.
    - apply list_elem_of_singleton. reflexivity.
    - apply list_elem_of_In. right. left. reflexivity. }
  split; [reflexivity |]. split; [reflexivity |].
  split.
  { apply cstep_tell_buffer. reflexivity. }
  split.
  - intros Hprecedes.
    assert (Hset : exists j, w_trace Scenario.w_constructed_late !! j
                             = Some (EvSetUsingDedicatedThread true) /\ 5 < j).
    { exists 10. split; [reflexivity | lia]. }
    destruct Hset as (j & Hj & Hlt).
    specialize (Hprecedes j 5 _ _ Hj eq_refl eq_refl eq_refl). lia.
  - intros Hprecedes.
    assert (Hset : exists j, w_trace Scenario.w_constructed_late !! j
                             = Some (EvSetUsingDedicatedThread true) /\ 6 < j).
    { exists 10. split; [reflexivity | lia]. }
    destruct Hset as (j & Hj & Hlt).
    specialize (Hprecedes j 6 _ _ Hj eq_refl eq_refl eq_refl). lia.
Qed.

(** C3, as the code has it.  After the constructor has returned, and at
    every point thereafter up to which no one but the listener has written
    the buffer's dedicated-thread flag (the listener's callbacks and its
    destructor never write it; the others may do anything else in between),
    the flag is true if and only if the listener was constructed with
    [spin_thread = true] or the flag was true already before the
    construction.  So for a buffer whose flag was false, the flag is then
    true exactly in dedicated mode; and a listener constructed with
    [spin_thread = false] leaves the flag as it was, has no thread handle
    and no executor, and neither its construction nor any step of its own
    creates a thread. *)
Theorem flag_after_construction_and_thereafter :
  forall (B : Type) (BA : BufferAdapter B)
         (node_base node_logging node_parameters node_topics : NodeHandle)
         (spin_thread : bool) (qos static_qos : QoS)
         (options static_options : SubscriptionOptions)
         (w w1 w2 : World B) (l : TransformListener) (p : Phase),
    TransformListener_ctor
      node_base node_logging node_parameters node_topics
      spin_thread qos static_qos options static_options w = Returned l w1 ->
    rtc (life_step l) (Alive, w1) (p, w2) ->
    spin_thread_ l = spin_thread /\
    isUsingDedicatedThread (w_buffer w2)
      = spin_thread || isUsingDedicatedThread (w_buffer w) /\
    (isUsingDedicatedThread (w_buffer w) = false ->
     (isUsingDedicatedThread (w_buffer w2) = true <-> spin_thread = true)) /\
    (spin_thread = false ->
     isUsingDedicatedThread (w_buffer w2) = isUsingDedicatedThread (w_buffer w) /\
     dedicated_listener_thread_ l = None /\
     executor_ l = None /\
     w_threads w1 = w_threads w /\
     (forall c c' : Phase * World B,
         lstep l c c' -> w_threads c'.2 = w_threads c.2) /\
     (forall (p' : Phase) (w3 : World B),
         rtc (lstep l) (Alive, w1) (p', w3) -> w_threads w3 = w_threads w)).
Proof.
  intros B BA nb nl np nt spin q sq o so w w1 w2 l p Hctor Hsteps.
  pose proof (life_steps_flag _ _ _ Hsteps) as Hflag. cbn [fst snd] in Hflag.
  unfold TransformListener_ctor in Hctor.
  destruct spin.
  - destruct (init_dedicated_returned_inv _ _ _ _ _ _ _ _ _ _ _ _ _ Hctor)
      as (Htf & Hst & Hth).
    rewrite (init_dedicated_returns _ _ _ _ _ _ _ _ _ _ w Htf Hst Hth) in Hctor.
    injection Hctor as <- <-. cbn in Hflag. rewrite flag_after_set in Hflag.
    rewrite Hflag. cbn.
    split; [reflexivity |]. split; [reflexivity |].
    split; [intros _; split; reflexivity | discriminate].
  - destruct (init_external_returned_inv _ _ _ _ _ _ _ _ _ _ _ _ _ Hctor)
      as (_ & _ & -> & Hbuf & _ & _ & _ & Hthreads & _).
    rewrite Hbuf in Hflag. rewrite Hflag. cbn.
    split; [reflexivity |]. split; [reflexivity |].
    split.
    + intros ->. split; discriminate.
    + intros _. split; [reflexivity |]. split; [reflexivity |].
      split; [reflexivity |]. split; [exact Hthreads |].
      split.
      * intros c c' Hstep.
        refine (lstep_threads_external _ _ _ _ _ Hstep); reflexivity.
      * intros p' w3 Hown. rewrite <- Hthreads.
        refine (lsteps_threads_external _ _ _ _ _ Hown); reflexivity.
Qed.

Lemma flag_after_construction_and_thereafter_witness :
  TransformListener_ctor (B := BufferCore) 0 0 0 0 false
    Scenario.qos Scenario.static_qos
    detail.get_default_transform_listener_sub_options
    detail.get_default_transform_listener_static_sub_options Scenario.w0
  = Returned Scenario.l_external Scenario.w_external /\
  rtc (life_step Scenario.l_external)
    (Alive, Scenario.w_external) (Alive, Scenario.w_external_other) /\
  length (frames_ (w_buffer Scenario.w_external_other)) = 3 /\
  isUsingDedicatedThread (w_buffer Scenario.w_external_other) = false /\
  dedicated_listener_thread_ Scenario.l_external = None /\
  w_threads Scenario.w_external = [].
Proof.
  assert (Hctor :
    TransformListener_ctor (B := BufferCore) 0 0 0 0 false
      Scenario.qos Scenario.static_qos
      detail.get_default_transform_listener_sub_options
      detail.get_default_transform_listener_static_sub_options Scenario.w0
    = Returned Scenario.l_external Scenario.w_external) by run.
  assert (Hsteps : rtc (life_step Scenario.l_external)
                     (Alive, Scenario.w_external)
                     (Alive, Scenario.w_external_other)).
  { eapply rtc_l.
    { left. apply (step_external _ _ 0 Scenario.batch3 Scenario.w_external_batch);
        [reflexivity | left; reflexivity | run]. }
    eapply rtc_l; [| apply rtc_refl].
    right. split; reflexivity. }
  split; [exact Hctor |]. split; [exact Hsteps |].
  split; [reflexivity |].
  destruct (flag_after_construction_and_thereafter
              BufferCore BufferCore_adapter 0 0 0 0 false
              Scenario.qos Scenario.static_qos
              detail.get_default_transform_listener_sub_options
              detail.get_default_transform_listener_static_sub_options
              _ _ _ _ _ Hctor Hsteps)
    as (_ & _ & _ & Hext).
  destruct (Hext eq_refl) as (Hflag & Hthread & _ & Hthreads & _).
  split; [exact Hflag |]. split; [exact Hthread | exact Hthreads].
Defined.

(** C3, as the claim has it, fails: a listener constructed with
    [spin_thread = false] on a buffer whose owner has set the
    dedicated-thread flag leaves the flag true, although the listener is not
    in dedicated mode. *)
Lemma flag_true_without_dedicated_thread :
  exists l w',
    TransformListener_ctor (B := BufferCore) 0 0 0 0 false
      Scenario.qos Scenario.static_qos
      detail.get_default_transform_listener_sub_options
      detail.get_default_transform_listener_static_sub_options
      (Scenario.node no_faults Scenario.flagged_buffer) = Returned l w' /\
    spin_thread_ l = false /\
    isUsingDedicatedThread (w_buffer w') = true /\
    ~ (isUsingDedicatedThread (w_buffer w') = true <-> spin_thread_ l = true).
Proof.
  eexists _, _. split; [run |].
  split; [reflexivity |]. split; [reflexivity |].
  intros [Hiff _]. specialize (Hiff eq_refl). discriminate.
Qed.

(** Why the others are asked not to write the flag: a second listener,
    constructed in dedicated mode on the node and buffer of an external
    one, sets the flag, which was false. *)
Example a_later_dedicated_listener_sets_the_flag :
  exists l2 w2,
    TransformListener_ctor (B := BufferCore) 0 0 0 0 true
      Scenario.qos Scenario.static_qos
      detail.get_default_transform_listener_sub_options
      detail.get_default_transform_listener_static_sub_options Scenario.w_external
    = Returned l2 w2 /\
    spin_thread_ Scenario.l_external = false /\
    isUsingDedicatedThread (w_buffer Scenario.w_external) = false /\
    isUsingDedicatedThread (w_buffer w2) = true.
Proof. eexists _, _. split; [run |]. repeat split. Qed.

(** C6.  For a listener in dedicated mode, along every interleaving of its
    background thread with its destructor: when the destructor has returned,
    the executor has been cancelled, the body of the background thread has
    returned (the join has waited for it) and the thread is joined; the join
    is the last event of the trace, and from then on no step of the listener
    is left, so that no [insertTransform] call follows the return of the
    destructor. *)
Theorem destructor_joins_background_thread :
  forall (B : Type) (BA : BufferAdapter B)
         (node_base node_logging node_parameters node_topics : NodeHandle)
         (qos static_qos : QoS) (options static_options : SubscriptionOptions)
         (w w1 w2 : World B) (l : TransformListener),
    TransformListener_ctor
      node_base node_logging node_parameters node_topics
      true qos static_qos options static_options w = Returned l w1 ->
    rtc (lstep l) (Alive, w1) (Destroyed, w2) ->
    exists t e th ex tr,
      dedicated_listener_thread_ l = Some t /\
      executor_ l = Some e /\
      w_executors w2 !! e = Some ex /\ ex_cancelled ex = true /\
      w_threads w2 !! t = Some th /\
      th_finished th = true /\ th_joined th = true /\
      w_trace w2 = tr ++ [EvJoin t] /\
      EvThreadExit t ∈ tr /\
      (forall c, rtc (lstep l) (Destroyed, w2) c ->
                 c = (Destroyed, w2) /\
                 insert_calls (w_trace c.2) = insert_calls (w_trace w2)).
Proof.
  intros B BA nb nl np nt q sq o so w w1 w2 l Hctor Hsteps.
  unfold TransformListener_ctor in Hctor.
  destruct (init_dedicated_returned_inv _ _ _ _ _ _ _ _ _ _ _ _ _ Hctor)
    as (Htf & Hst & Hth).
  rewrite (init_dedicated_returns _ _ _ _ _ _ _ _ _ _ w Htf Hst Hth) in Hctor.
  injection Hctor as Hl Hw1.
  set (t := length (w_threads w)) in *.
  set (e := length (w_executors w)) in *.
  assert (Hspin : spin_thread_ l = true) by (rewrite <- Hl; reflexivity).
  assert (Ht : dedicated_listener_thread_ l = Some t) by (rewrite <- Hl; reflexivity).
  assert (He : executor_ l = Some e) by (rewrite <- Hl; reflexivity).
  assert (Hinit : dedicated_inv t e (Alive, w1)).
  { rewrite <- Hw1. unfold dedicated_inv. cbn.
    eexists _, _.
    split; [apply lookup_snoc_length |].
    split; [reflexivity |].
    split; [apply lookup_snoc_length |].
    split; [intros Hne; contradiction Hne; reflexivity |].
    split; discriminate. }
  pose proof (lsteps_dedicated_inv l t e Hspin Ht He _ _ Hsteps Hinit) as Hinv.
  pose proof Hinv as Hfinal.
  destruct Hinv as (th & ex & Hth' & Hbody & Hex & Hcancel & Hfin & Hdes).
  cbn [fst snd] in *.
  destruct (Hdes eq_refl) as (Hf & Hj & tr & Htr).
  destruct (Hfin Hf) as [Hc Hin].
  exists t, e, th, ex, tr.
  split; [assumption |]. split; [assumption |].
  split; [assumption |]. split; [assumption |].
  split; [assumption |]. split; [assumption |]. split; [assumption |].
  split; [assumption |].
  split.
  { rewrite Htr in Hin. apply elem_of_app in Hin. destruct Hin as [Hin | Hin];
      [exact Hin |].
    apply list_elem_of_singleton in Hin. discriminate. }
  intros c Hc'.
  inversion Hc' as [| c1 c2 c3 Hstep Hrest Hc1 Hc3].
  - split; reflexivity.
  - exfalso. exact (destroyed_is_final l t e Ht w2 c2 Hfinal Hstep).
Qed.

Lemma destructor_joins_background_thread_witness :
  TransformListener_ctor (B := BufferCore) 0 0 0 0 true
    Scenario.qos Scenario.static_qos
    detail.get_default_transform_listener_sub_options
    detail.get_default_transform_listener_static_sub_options Scenario.w0
  = Returned Scenario.l_dedicated Scenario.w_dedicated /\
  rtc (lstep Scenario.l_dedicated)
    (Alive, Scenario.w_dedicated) (Destroyed, Scenario.w_dedicated_destroyed) /\
  exists t e th ex tr,
    dedicated_listener_thread_ Scenario.l_dedicated = Some t /\
    executor_ Scenario.l_dedicated = Some e /\
    w_executors Scenario.w_dedicated_destroyed !! e = Some ex /\
    ex_cancelled ex = true /\
    w_threads Scenario.w_dedicated_destroyed !! t = Some th /\
    th_finished th = true /\ th_joined th = true /\
    w_trace Scenario.w_dedicated_destroyed = tr ++ [EvJoin t] /\
    EvThreadExit t ∈ tr /\
    (forall c,
        rtc (lstep Scenario.l_dedicated) (Destroyed, Scenario.w_dedicated_destroyed) c ->
        c = (Destroyed, Scenario.w_dedicated_destroyed) /\
        insert_calls (w_trace c.2)
          = insert_calls (w_trace Scenario.w_dedicated_destroyed)).
Proof.
  assert (Hctor :
    TransformListener_ctor (B := BufferCore) 0 0 0 0 true
      Scenario.qos Scenario.static_qos
      detail.get_default_transform_listener_sub_options
      detail.get_default_transform_listener_static_sub_options Scenario.w0
    = Returned Scenario.l_dedicated Scenario.w_dedicated) by run.
  assert (Hsteps : rtc (lstep Scenario.l_dedicated)
                     (Alive, Scenario.w_dedicated)
                     (Destroyed, Scenario.w_dedicated_destroyed)).
  { eapply rtc_l.
    { apply (step_spin Scenario.l_dedicated Alive Scenario.w_dedicated 0
               {| th_body := spin_executor 0; th_finished := false;
                  th_joined := false |}
               0 {| ex_callback_groups := [1]; ex_cancelled := false |}
               1 {| cg_type := MutuallyExclusive;
                    cg_automatically_add_to_executor_with_node := false;
                    cg_subscriptions := [0; 1] |}
               1 Scenario.batch3 Scenario.w_dedicated_batch);
        try reflexivity.
      - apply list_elem_of_singleton. reflexivity.
      - apply list_elem_of_In. right. left. reflexivity. }
    eapply rtc_l.
    { apply (step_dtor_stop Scenario.l_dedicated Scenario.w_dedicated_batch
               Scenario.w_dedicated_stopping). reflexivity. }
    eapply rtc_l.
    { apply (step_spin_return Scenario.l_dedicated Stopping
               Scenario.w_dedicated_stopping 0
               {| th_body := spin_executor 0; th_finished := false;
                  th_joined := false |}
               0 {| ex_callback_groups := [1]; ex_cancelled := true |});
        reflexivity. }
    eapply rtc_l; [| apply rtc_refl].
    apply (step_dtor_join Scenario.l_dedicated
             (thread_exit 0 Scenario.w_dedicated_stopping)
             Scenario.w_dedicated_destroyed).
    reflexivity. }
  split; [exact Hctor |]. split; [exact Hsteps |].
  exact (destructor_joins_background_thread
           BufferCore BufferCore_adapter 0 0 0 0
           Scenario.qos Scenario.static_qos
           detail.get_default_transform_listener_sub_options
           detail.get_default_transform_listener_static_sub_options
           _ _ _ _ Hctor Hsteps).
Defined.

(* ===================================================================== *)
(** * Further properties of the constructor and [init] *)
(* ===================================================================== *)

(** ** Auxiliary facts *)

Lemma tf_topics_differ (tf_ns : string) :
  tf_ns +:+ "/tf" <> tf_ns +:+ "/tf_static".
Proof.
  induction tf_ns as [| c ns IH]; cbn.
  - discriminate.
  - intros Heq. injection Heq as Heq. exact (IH Heq).
Qed.

Section OnlyAddsFacts.

Context {B : Type} `{BA : BufferAdapter B}.

Lemma only_adds_refl (w : World B) : only_adds w w.
Proof.
  unfold only_adds. repeat split; try reflexivity.
  intros g cg Hg. exists cg. repeat split; [assumption | reflexivity].
Qed.

Lemma only_adds_trans (w1 w2 w3 : World B) :
  only_adds w1 w2 -> only_adds w2 w3 -> only_adds w1 w3.
Proof.
  intros (Hs & He & Ht & Htr & Hf & Hg) (Hs' & He' & Ht' & Htr' & Hf' & Hg').
  unfold only_adds.
  split; [etrans; eassumption |]. split; [etrans; eassumption |].
  split; [etrans; eassumption |]. split; [etrans; eassumption |].
  split; [congruence |].
  intros g cg Hcg.
  destruct (Hg g cg Hcg) as (cg1 & Hcg1 & Hty & Hauto & Hsub).
  destruct (Hg' g cg1 Hcg1) as (cg2 & Hcg2 & Hty' & Hauto' & Hsub').
  exists cg2. split; [assumption |]. split; [congruence |]. split; [congruence |].
  etrans; eassumption.
Qed.

(** A step that is known to add only, followed by steps that add only. *)
Lemma bind_only_adds {A C : Type} (m : M B A) (k : A -> M B C) (w0 w : World B) :
  only_adds w0 (world_of (m w)) ->
  (forall a w1, m w = Returned a w1 -> only_adds w0 (world_of (k a w1))) ->
  only_adds w0 (world_of (bind m k w)).
Proof.
  intros Hm Hk. unfold bind. destruct (m w) as [a w1 | e w1]; cbn in *.
  - apply Hk. reflexivity.
  - exact Hm.
Qed.

Lemma create_callback_group_only_adds
    (nb : NodeHandle) (ty : CallbackGroupType) (auto_add : bool) (w : World B) :
  only_adds w (world_of (create_callback_group nb ty auto_add w)).
Proof.
  unfold only_adds, create_callback_group. cbn.
  split; [reflexivity |]. split; [reflexivity |]. split; [reflexivity |].
  split; [apply prefix_app_r; reflexivity |]. split; [reflexivity |].
  intros g cg Hg. exists cg.
  split; [apply lookup_app_l_Some; assumption |].
  repeat split; reflexivity.
Qed.

Lemma create_subscription_only_adds
    (np nt : NodeHandle) (topic : string) (q : QoS) (cb : Callback)
    (o : SubscriptionOptions) (w : World B) :
  only_adds w (world_of (create_subscription np nt topic q cb o w)).
Proof.
  unfold create_subscription.
  destruct (bind_fails (w_faults w) topic); [apply only_adds_refl |].
  destruct (w_groups w !! default 0 (callback_group o)) as [cg0 |] eqn:Hg0;
    [| apply only_adds_refl].
  unfold only_adds. cbn.
  split; [apply prefix_app_r; reflexivity |].
  split; [reflexivity |]. split; [reflexivity |].
  split; [apply prefix_app_r; reflexivity |]. split; [reflexivity |].
  intros g cg Hg.
  destruct (decide (default 0 (callback_group o) = g)) as [<- | Hne].
  - eexists. split.
    + apply list_lookup_insert_eq. eapply lookup_lt_Some. exact Hg0.
    + assert (cg0 = cg) as -> by congruence. cbn.
      repeat split. apply prefix_app_r. reflexivity.
  - exists cg. split; [rewrite list_lookup_insert_ne; assumption |].
    repeat split; reflexivity.
Qed.

Lemma make_thread_only_adds (body : ThreadBody) (w : World B) :
  only_adds w (world_of (make_thread body w)).
Proof.
  unfold make_thread.
  destruct (thread_start_fails (w_faults w)); [apply only_adds_refl |].
  unfold only_adds. cbn.
  split; [reflexivity |]. split; [reflexivity |].
  split; [apply prefix_app_r; reflexivity |].
  split; [apply prefix_app_r; reflexivity |]. split; [reflexivity |].
  intros g cg Hg. exists cg. repeat split; [assumption | reflexivity].
Qed.

Lemma buffer_setUsingDedicatedThread_only_adds (v : bool) (w : World B) :
  only_adds w (world_of (buffer_setUsingDedicatedThread v w)).
Proof.
  unfold only_adds, buffer_setUsingDedicatedThread. cbn.
  split; [reflexivity |]. split; [reflexivity |]. split; [reflexivity |].
  split; [apply prefix_app_r; reflexivity |]. split; [reflexivity |].
  intros g cg Hg. exists cg. repeat split; [assumption | reflexivity].
Qed.

Lemma make_SingleThreadedExecutor_only_adds (w : World B) :
  only_adds w (world_of (make_SingleThreadedExecutor w)).
Proof.
  unfold only_adds, make_SingleThreadedExecutor. cbn.
  split; [reflexivity |]. split; [apply prefix_app_r; reflexivity |].
  split; [reflexivity |].
  split; [apply prefix_app_r; reflexivity |]. split; [reflexivity |].
  intros g cg Hg. exists cg. repeat split; [assumption | reflexivity].
Qed.

(** Adding a group to an executor that [w0] does not have yet leaves the
    executors of [w0] alone. *)
Lemma add_callback_group_only_adds (e g : nat) (nb : NodeHandle) (w0 w : World B) :
  only_adds w0 w ->
  length (w_executors w0) <= e ->
  only_adds w0 (world_of (add_callback_group e g nb w)).
Proof.
  intros (Hs & (k & He) & Ht & Htr & Hf & Hg) Hfresh.
  unfold only_adds, add_callback_group. cbn.
  split; [assumption |].
  split.
  { rewrite He, alter_app_r_alt by assumption. apply prefix_app_r. reflexivity. }
  split; [assumption |].
  split; [apply prefix_app_r; assumption |].
  split; assumption.
Qed.

End OnlyAddsFacts.

Section InitOnlyAdds.

Context {B : Type} `{BA : BufferAdapter B}.

Lemma bind_only_adds_acc {A C : Type} (m : M B A) (k : A -> M B C) (w0 w : World B) :
  only_adds w0 (world_of (m w)) ->
  (forall a w1,
      m w = Returned a w1 -> only_adds w0 w1 -> only_adds w0 (world_of (k a w1))) ->
  only_adds w0 (world_of (bind m k w)).
Proof.
  intros Hm Hk. apply bind_only_adds; [exact Hm |].
  intros a w1 Hrun. apply Hk; [exact Hrun |].
  rewrite Hrun in Hm. exact Hm.
Qed.

(** [init] adds only, whatever its mode and whether it returns or throws. *)
Lemma init_only_adds
    (this : TransformListener) (nb nl np nt : NodeHandle) (spin_thread : bool)
    (q sq : QoS) (o so : SubscriptionOptions) (tf_ns : string) (w : World B) :
  only_adds w (world_of (init this nb nl np nt spin_thread q sq o so tf_ns w)).
Proof.
  unfold init.
  destruct spin_thread;
    cbn -[bind create_callback_group create_subscription
          make_SingleThreadedExecutor add_callback_group make_thread
          buffer_setUsingDedicatedThread ret].
  - apply bind_only_adds_acc; [apply create_callback_group_only_adds |].
    intros g w1 _ H1.
    apply bind_only_adds_acc;
      [eapply only_adds_trans; [exact H1 | apply create_subscription_only_adds] |].
    intros s w2 _ H2.
    apply bind_only_adds_acc;
      [eapply only_adds_trans; [exact H2 | apply create_subscription_only_adds] |].
    intros s' w3 _ H3.
    apply bind_only_adds_acc;
      [eapply only_adds_trans;
       [exact H3 | apply make_SingleThreadedExecutor_only_adds] |].
    intros e w4 He H4.
    assert (Hfresh : length (w_executors w) <= e).
    { unfold make_SingleThreadedExecutor in He. injection He as <- _.
      apply prefix_length. apply H3. }
    apply bind_only_adds_acc;
      [apply add_callback_group_only_adds; assumption |].
    intros [] w5 _ H5.
    apply bind_only_adds_acc;
      [eapply only_adds_trans; [exact H5 | apply make_thread_only_adds] |].
    intros t w6 _ H6.
    apply bind_only_adds_acc;
      [eapply only_adds_trans;
       [exact H6 | apply buffer_setUsingDedicatedThread_only_adds] |].
    intros [] w7 _ H7. exact H7.
  - apply bind_only_adds_acc; [apply create_subscription_only_adds |].
    intros s w1 _ H1.
    apply bind_only_adds_acc;
      [eapply only_adds_trans; [exact H1 | apply create_subscription_only_adds] |].
    intros s' w2 _ H2. exact H2.
Qed.

End InitOnlyAdds.

(** ** The properties *)

(** X1.  In dedicated mode a callback group named by the caller's options
    has no effect: [init] overwrites the group of its copies of both option
    objects with the group it has just created, so the constructor does the
    same, returning or throwing, whatever group the options carry. *)
Theorem dedicated_mode_ignores_callers_callback_group :
  forall (B : Type) (BA : BufferAdapter B)
         (node_base node_logging node_parameters node_topics : NodeHandle)
         (qos static_qos : QoS) (options static_options : SubscriptionOptions)
         (g g' : option nat) (w : World B),
    TransformListener_ctor
      node_base node_logging node_parameters node_topics
      true qos static_qos
      (with_callback_group g options) (with_callback_group g' static_options) w
    = TransformListener_ctor
        node_base node_logging node_parameters node_topics
        true qos static_qos options static_options w.
Proof.
  intros B BA nb nl np nt q sq o so g g' w.
  unfold TransformListener_ctor, init.
  cbn -[bind create_callback_group create_subscription
        make_SingleThreadedExecutor add_callback_group make_thread
        buffer_setUsingDedicatedThread ret].
  unfold bind at 1 3. unfold create_callback_group. cbn [world_of].
  reflexivity.
Qed.

(** X2.  Whatever the mode, each of the two subscriptions of a returning
    [init] is created with the QoS the caller gave for its topic, dynamic or
    static, and with the overridable policies and the intra-process setting
    of the caller's options for that topic; its callback group is the
    listener's own group in dedicated mode and the caller's in external
    mode.  The two subscriptions are different objects on different
    topics. *)
Theorem subscriptions_carry_the_callers_settings :
  forall (B : Type) (BA : BufferAdapter B) (this : TransformListener)
         (node_base node_logging node_parameters node_topics : NodeHandle)
         (spin_thread : bool) (qos static_qos : QoS)
         (options static_options : SubscriptionOptions) (tf_ns : string)
         (w w' : World B) (l : TransformListener),
    init this node_base node_logging node_parameters node_topics
         spin_thread qos static_qos options static_options tf_ns w = Returned l w' ->
    exists s s' sub sub',
      message_subscription_tf_ l = Some s /\
      w_subscriptions w' !! s = Some sub /\
      message_subscription_tf_static_ l = Some s' /\
      w_subscriptions w' !! s' = Some sub' /\
      s <> s' /\
      sub_topic sub <> sub_topic sub' /\
      sub_qos sub = qos /\
      sub_qos sub' = static_qos /\
      qos_overriding_options (sub_options sub) = qos_overriding_options options /\
      qos_overriding_options (sub_options sub')
        = qos_overriding_options static_options /\
      use_intra_process_comm (sub_options sub) = use_intra_process_comm options /\
      use_intra_process_comm (sub_options sub')
        = use_intra_process_comm static_options /\
      callback_group (sub_options sub)
        = (if spin_thread then Some (length (w_groups w))
           else callback_group options) /\
      callback_group (sub_options sub')
        = (if spin_thread then Some (length (w_groups w))
           else callback_group static_options).
Proof.
  intros B BA this nb nl np nt spin q sq o so ns w w' l Hinit.
  apply init_returned_subscriptions in Hinit.
  destruct Hinit as (o1 & o2 & evs & Hsubs & Htf & Hst & -> & -> & _).
  eexists _, _, _, _.
  split; [exact Htf |].
  split; [rewrite Hsubs; apply lookup_two_fst |].
  split; [exact Hst |].
  split; [rewrite Hsubs; apply lookup_two_snd |].
  split; [lia |].
  split; [apply tf_topics_differ |].
  destruct spin; repeat split; reflexivity.
Qed.

Lemma subscriptions_carry_the_callers_settings_witness :
  exists l w',
    init (B := BufferCore) TransformListener_members 0 0 0 0 true
      Scenario.qos Scenario.static_qos
      detail.get_default_transform_listener_sub_options
      detail.get_default_transform_listener_static_sub_options "robot1" Scenario.w0
    = Returned l w' /\
    map sub_qos (w_subscriptions w') = [Scenario.qos; Scenario.static_qos] /\
    map (fun sub => callback_group (sub_options sub)) (w_subscriptions w')
    = [Some 1; Some 1].
Proof.
  eexists _, _. split; [run |].
  destruct (subscriptions_carry_the_callers_settings
              BufferCore BufferCore_adapter TransformListener_members 0 0 0 0 true
              Scenario.qos Scenario.static_qos
              detail.get_default_transform_listener_sub_options
              detail.get_default_transform_listener_static_sub_options
              "robot1" Scenario.w0 _ _ ltac:(run))
    as (s & s' & sub & sub' & Hs & Hsub & Hs' & Hsub' & _ & _ & Hq & Hq'
        & _ & _ & _ & _ & Hg & Hg').
  injection Hs as <-. injection Hs' as <-.
  injection Hsub as <-. injection Hsub' as <-.
  split; reflexivity.
Defined.

(** X3.  Constructed with [spin_thread = false], the listener has made
    exactly two calls, the creation of the "/tf" subscription and then that
    of the "/tf_static" subscription, each with the callback group the
    caller's options name.  The buffer, the executors and the threads are
    exactly as they were, no callback group has been created, and the
    listener holds no group, executor or thread. *)
Theorem external_mode_only_subscribes :
  forall (B : Type) (BA : BufferAdapter B)
         (node_base node_logging node_parameters node_topics : NodeHandle)
         (qos static_qos : QoS) (options static_options : SubscriptionOptions)
         (w w' : World B) (l : TransformListener),
    TransformListener_ctor
      node_base node_logging node_parameters node_topics
      false qos static_qos options static_options w = Returned l w' ->
    w_trace w' =
      w_trace w ++
      [EvCreateSubscription (length (w_subscriptions w)) "/tf"
         (bind_subscription_callback false) (callback_group options);
       EvCreateSubscription (S (length (w_subscriptions w))) "/tf_static"
         (bind_subscription_callback true) (callback_group static_options)] /\
    w_buffer w' = w_buffer w /\
    w_executors w' = w_executors w /\
    w_threads w' = w_threads w /\
    length (w_groups w') = length (w_groups w) /\
    length (w_subscriptions w') = 2 + length (w_subscriptions w) /\
    callback_group_ l = None /\
    executor_ l = None /\
    dedicated_listener_thread_ l = None.
Proof.
  intros B BA nb nl np nt q sq o so w w' l Hctor.
  unfold TransformListener_ctor in Hctor.
  destruct (init_external_returned_inv _ _ _ _ _ _ _ _ _ _ _ _ _ Hctor)
    as (_ & _ & -> & Hbuf & Hsubs & Hgroups & Hexecs & Hthreads & _ & Htr).
  split; [exact Htr |].
  split; [exact Hbuf |]. split; [exact Hexecs |]. split; [exact Hthreads |].
  split; [exact Hgroups |].
  split; [rewrite Hsubs, length_app; cbn; lia |].
  repeat split.
Qed.

Lemma external_mode_only_subscribes_witness :
  TransformListener_ctor (B := BufferCore) 0 0 0 0 false
    Scenario.qos Scenario.static_qos
    detail.get_default_transform_listener_sub_options
    detail.get_default_transform_listener_static_sub_options Scenario.w0
  = Returned Scenario.l_external Scenario.w_external /\
  w_trace Scenario.w_external =
    [EvCreateSubscription 0 "/tf" (bind_subscription_callback false) None;
     EvCreateSubscription 1 "/tf_static" (bind_subscription_callback true) None] /\
  w_buffer Scenario.w_external = BufferCore_new /\
  w_executors Scenario.w_external = [] /\
  w_threads Scenario.w_external = [].
Proof.
  assert (Hctor :
    TransformListener_ctor (B := BufferCore) 0 0 0 0 false
      Scenario.qos Scenario.static_qos
      detail.get_default_transform_listener_sub_options
      detail.get_default_transform_listener_static_sub_options Scenario.w0
    = Returned Scenario.l_external Scenario.w_external) by run.
  split; [exact Hctor |].
  destruct (external_mode_only_subscribes
              BufferCore BufferCore_adapter 0 0 0 0
              Scenario.qos Scenario.static_qos
              detail.get_default_transform_listener_sub_options
              detail.get_default_transform_listener_static_sub_options
              _ _ _ Hctor)
    as (Htr & Hbuf & Hexecs & Hthreads & _).
  split; [exact Htr |]. split; [exact Hbuf |].
  split; [exact Hexecs | exact Hthreads].
Defined.

(** X4.  In dedicated mode the outcome of the constructor and the calls it
    has made are decided by the first call that is refused, in the order of
    [init]: the callback group, the "/tf" subscription, the "/tf_static"
    subscription, the executor, the group added to the executor, the thread,
    the buffer told.  A refused "/tf" throws after the callback group alone;
    a refused "/tf_static" after the "/tf" subscription; a refused thread
    after the executor has got its group and before the buffer is told;
    otherwise the constructor returns after all seven calls.  No other
    exception leaves the constructor. *)
Theorem dedicated_outcome_is_decided_by_the_first_refusal :
  forall (B : Type) (BA : BufferAdapter B)
         (node_base node_logging node_parameters node_topics : NodeHandle)
         (qos static_qos : QoS) (options static_options : SubscriptionOptions)
         (w : World B),
    let out :=
      TransformListener_ctor
        node_base node_logging node_parameters node_topics
        true qos static_qos options static_options w in
    let g := length (w_groups w) in
    let s := length (w_subscriptions w) in
    let e := length (w_executors w) in
    let t := length (w_threads w) in
    let calls :=
      [EvCreateCallbackGroup g MutuallyExclusive false;
       EvCreateSubscription s "/tf" (bind_subscription_callback false) (Some g);
       EvCreateSubscription (S s) "/tf_static"
         (bind_subscription_callback true) (Some g);
       EvMakeExecutor e;
       EvAddCallbackGroup e g;
       EvThreadStart t (spin_executor e);
       EvSetUsingDedicatedThread true] in
    if bind_fails (w_faults w) "/tf" then
      exception_of out = Some (RCLError "/tf") /\
      w_trace (world_of out) = w_trace w ++ take 1 calls
    else if bind_fails (w_faults w) "/tf_static" then
      exception_of out = Some (RCLError "/tf_static") /\
      w_trace (world_of out) = w_trace w ++ take 2 calls
    else if thread_start_fails (w_faults w) then
      exception_of out = Some system_error /\
      w_trace (world_of out) = w_trace w ++ take 5 calls
    else
      exception_of out = None /\
      w_trace (world_of out) = w_trace w ++ calls.
Proof.
  intros B BA nb nl np nt q sq o so w.
  unfold TransformListener_ctor, init, bind, create_callback_group,
    create_subscription, make_SingleThreadedExecutor, add_callback_group,
    make_thread, buffer_setUsingDedicatedThread, ret, log, set_groups,
    set_subscriptions, set_executors, set_threads, set_buffer.
  cbn.
  change ("" +:+ "/tf") with "/tf".
  change ("" +:+ "/tf_static") with "/tf_static".
  destruct (bind_fails (w_faults w) "/tf") eqn:Htf.
  { cbn. split; reflexivity. }
  cbn. rewrite lookup_snoc_length. cbn.
  destruct (bind_fails (w_faults w) "/tf_static") eqn:Hst.
  { cbn. rewrite <- !app_assoc. split; reflexivity. }
  cbn. rewrite insert_snoc_length, lookup_snoc_length. cbn.
  destruct (thread_start_fails (w_faults w)) eqn:Hth.
  { cbn. rewrite length_app. cbn.
    replace (length (w_subscriptions w) + 1)
      with (S (length (w_subscriptions w))) by lia.
    rewrite <- !app_assoc. split; reflexivity. }
  cbn. rewrite length_app. cbn.
  replace (length (w_subscriptions w) + 1)
    with (S (length (w_subscriptions w))) by lia.
  rewrite <- !app_assoc. split; reflexivity.
Qed.

(** X5.  Two listeners constructed in dedicated mode, one after the other,
    on the same node and buffer are kept apart: the second construction
    creates a callback group, an executor, a thread and two subscriptions of
    its own, all different from those of the first listener, and leaves
    those of the first listener as they were.  Each executor serves the group
    of its own listener only, and each group holds the two subscriptions of
    its own listener only. *)
Theorem two_dedicated_listeners_are_kept_apart :
  forall (B : Type) (BA : BufferAdapter B)
         (nb1 nl1 np1 nt1 nb2 nl2 np2 nt2 : NodeHandle)
         (q1 sq1 q2 sq2 : QoS) (o1 so1 o2 so2 : SubscriptionOptions)
         (w w1 w2 : World B) (l1 l2 : TransformListener),
    TransformListener_ctor nb1 nl1 np1 nt1 true q1 sq1 o1 so1 w = Returned l1 w1 ->
    TransformListener_ctor nb2 nl2 np2 nt2 true q2 sq2 o2 so2 w1 = Returned l2 w2 ->
    exists g1 e1 t1 s1 s1' g2 e2 t2 s2 s2',
      (callback_group_ l1 = Some g1 /\ executor_ l1 = Some e1 /\
       dedicated_listener_thread_ l1 = Some t1 /\
       message_subscription_tf_ l1 = Some s1 /\
       message_subscription_tf_static_ l1 = Some s1') /\
      (callback_group_ l2 = Some g2 /\ executor_ l2 = Some e2 /\
       dedicated_listener_thread_ l2 = Some t2 /\
       message_subscription_tf_ l2 = Some s2 /\
       message_subscription_tf_static_ l2 = Some s2') /\
      g1 <> g2 /\ e1 <> e2 /\ t1 <> t2 /\ NoDup [s1; s1'; s2; s2'] /\
      w_groups w2 !! g1 = w_groups w1 !! g1 /\
      w_executors w2 !! e1 = w_executors w1 !! e1 /\
      w_threads w2 !! t1 = w_threads w1 !! t1 /\
      w_subscriptions w2 !! s1 = w_subscriptions w1 !! s1 /\
      w_subscriptions w2 !! s1' = w_subscriptions w1 !! s1' /\
      w_groups w2 !! g1 =
        Some {| cg_type := MutuallyExclusive;
                cg_automatically_add_to_executor_with_node := false;
                cg_subscriptions := [s1; s1'] |} /\
      w_groups w2 !! g2 =
        Some {| cg_type := MutuallyExclusive;
                cg_automatically_add_to_executor_with_node := false;
                cg_subscriptions := [s2; s2'] |} /\
      w_executors w2 !! e1 =
        Some {| ex_callback_groups := [g1]; ex_cancelled := false |} /\
      w_executors w2 !! e2 =
        Some {| ex_callback_groups := [g2]; ex_cancelled := false |} /\
      w_threads w2 !! t1 =
        Some {| th_body := spin_executor e1; th_finished := false;
                th_joined := false |} /\
      w_threads w2 !! t2 =
        Some {| th_body := spin_executor e2; th_finished := false;
                th_joined := false |}.
Proof.
  intros B BA nb1 nl1 np1 nt1 nb2 nl2 np2 nt2 q1 sq1 q2 sq2 o1 so1 o2 so2
         w w1 w2 l1 l2 Hc1 Hc2.
  unfold TransformListener_ctor in Hc1, Hc2.
  destruct (init_dedicated_returned_inv _ _ _ _ _ _ _ _ _ _ _ _ _ Hc1)
    as (Htf1 & Hst1 & Hth1).
  rewrite (init_dedicated_returns _ _ _ _ _ _ _ _ _ _ w Htf1 Hst1 Hth1) in Hc1.
  destruct (init_dedicated_returned_inv _ _ _ _ _ _ _ _ _ _ _ _ _ Hc2)
    as (Htf2 & Hst2 & Hth2).
  rewrite (init_dedicated_returns _ _ _ _ _ _ _ _ _ _ w1 Htf2 Hst2 Hth2) in Hc2.
  injection Hc2 as <- <-. injection Hc1 as <- <-. cbn.
  eexists _, _, _, _, _, _, _, _, _, _.
  split; [repeat split |]. split; [repeat split |].
  rewrite !length_app. cbn.
  split; [lia |]. split; [lia |]. split; [lia |].
  split.
  { repeat constructor; rewrite ?elem_of_cons, ?elem_of_nil; lia. }
  assert (Hg : forall (A : Type) (l : list A) (x y : A),
             ((l ++ [x]) ++ [y]) !! length l = (l ++ [x]) !! length l).
  { intros A l x y. apply lookup_app_l. rewrite length_app. cbn. lia. }
  split; [apply Hg |]. split; [apply Hg |]. split; [apply Hg |].
  split.
  { apply lookup_app_l. rewrite length_app. cbn. lia. }
  split.
  { apply lookup_app_l. rewrite length_app. cbn. lia. }
  split; [rewrite Hg; apply lookup_snoc_length |].
  split.
  { replace (length (w_groups w) + 1)
      with (length (w_groups w ++
              [{| cg_type := MutuallyExclusive;
                  cg_automatically_add_to_executor_with_node := false;
                  cg_subscriptions :=
                    [length (w_subscriptions w); S (length (w_subscriptions w))] |}]))
      by (rewrite length_app; reflexivity).
    rewrite lookup_snoc_length. repeat f_equal; lia. }
  split; [rewrite Hg; apply lookup_snoc_length |].
  split.
  { replace (length (w_executors w) + 1)
      with (length (w_executors w ++
              [{| ex_callback_groups := [length (w_groups w)];
                  ex_cancelled := false |}]))
      by (rewrite length_app; reflexivity).
    rewrite lookup_snoc_length. repeat f_equal; lia. }
  split; [rewrite Hg; apply lookup_snoc_length |].
  replace (length (w_threads w) + 1)
    with (length (w_threads w ++
            [{| th_body := spin_executor (length (w_executors w));
                th_finished := false; th_joined := false |}]))
    by (rewrite length_app; reflexivity).
  rewrite lookup_snoc_length. repeat f_equal; lia.
Qed.

Lemma two_dedicated_listeners_are_kept_apart_witness :
  exists l2 w2,
    TransformListener_ctor (B := BufferCore) 0 0 0 0 true
      Scenario.qos Scenario.static_qos
      detail.get_default_transform_listener_sub_options
      detail.get_default_transform_listener_static_sub_options Scenario.w0
    = Returned Scenario.l_dedicated Scenario.w_dedicated /\
    TransformListener_ctor (B := BufferCore) 0 0 0 0 true
      Scenario.qos Scenario.static_qos
      detail.get_default_transform_listener_sub_options
      detail.get_default_transform_listener_static_sub_options Scenario.w_dedicated
    = Returned l2 w2 /\
    callback_group_ l2 = Some 2 /\
    w_groups w2 !! 1 = w_groups Scenario.w_dedicated !! 1 /\
    w_executors w2 !! 0 = w_executors Scenario.w_dedicated !! 0 /\
    w_threads w2 !! 0 = w_threads Scenario.w_dedicated !! 0.
Proof.
  eexists _, _.
  assert (Hc1 :
    TransformListener_ctor (B := BufferCore) 0 0 0 0 true
      Scenario.qos Scenario.static_qos
      detail.get_default_transform_listener_sub_options
      detail.get_default_transform_listener_static_sub_options Scenario.w0
    = Returned Scenario.l_dedicated Scenario.w_dedicated) by run.
  split; [exact Hc1 |].
  split; [run |].
  split; [reflexivity |].
  destruct (two_dedicated_listeners_are_kept_apart
              BufferCore BufferCore_adapter 0 0 0 0 0 0 0 0
              Scenario.qos Scenario.static_qos Scenario.qos Scenario.static_qos
              detail.get_default_transform_listener_sub_options
              detail.get_default_transform_listener_static_sub_options
              detail.get_default_transform_listener_sub_options
              detail.get_default_transform_listener_static_sub_options
              Scenario.w0 _ _ _ _ Hc1 ltac:(run))
    as (g1 & e1 & t1 & s1 & s1' & g2 & e2 & t2 & s2 & s2'
        & (Hg1 & He1 & Ht1 & _) & _ & _ & _ & _ & _ & Hgroup & Hexec & Hthread & _).
  injection Hg1 as <-. injection He1 as <-. injection Ht1 as <-.
  split; [exact Hgroup |]. split; [exact Hexec | exact Hthread].
Defined.

(** X6.  The constructor takes nothing away, in either mode and whether it
    returns or throws: the subscriptions, executors and threads that were
    there before are still there, in their places and unchanged, the calls
    recorded before are still the beginning of the trace, and every callback
    group that was there is still of its type, still added or not added to an
    executor with the node as before, and has the members it had, perhaps
    followed by new ones. *)
Theorem construction_only_adds :
  forall (B : Type) (BA : BufferAdapter B)
         (node_base node_logging node_parameters node_topics : NodeHandle)
         (spin_thread : bool) (qos static_qos : QoS)
         (options static_options : SubscriptionOptions) (w : World B),
    only_adds w
      (world_of
         (TransformListener_ctor
            node_base node_logging node_parameters node_topics
            spin_thread qos static_qos options static_options w)).
Proof.
  intros B BA nb nl np nt spin q sq o so w.
  unfold TransformListener_ctor. apply init_only_adds.
Qed.

(** X7.  The members of a constructed listener agree with its mode: the
    listener records the mode and the node's base and logging interfaces,
    owns no node of its own, always holds its two subscriptions, and holds a
    callback group, an executor and a thread exactly when it is in dedicated
    mode.  Every handle it holds names an object of the node that the
    construction has created: it exists afterwards and did not exist
    before. *)
Theorem constructed_listener_members :
  forall (B : Type) (BA : BufferAdapter B)
         (node_base node_logging node_parameters node_topics : NodeHandle)
         (spin_thread : bool) (qos static_qos : QoS)
         (options static_options : SubscriptionOptions)
         (w w' : World B) (l : TransformListener),
    TransformListener_ctor
      node_base node_logging node_parameters node_topics
      spin_thread qos static_qos options static_options w = Returned l w' ->
    spin_thread_ l = spin_thread /\
    node_base_interface_ l = Some node_base /\
    node_logging_interface_ l = Some node_logging /\
    optional_default_node_ l = None /\
    (is_Some (callback_group_ l) <-> spin_thread_ l = true) /\
    (is_Some (executor_ l) <-> spin_thread_ l = true) /\
    (is_Some (dedicated_listener_thread_ l) <-> spin_thread_ l = true) /\
    (forall s,
        message_subscription_tf_ l = Some s \/
        message_subscription_tf_static_ l = Some s ->
        length (w_subscriptions w) <= s < length (w_subscriptions w')) /\
    is_Some (message_subscription_tf_ l) /\
    is_Some (message_subscription_tf_static_ l) /\
    (forall g, callback_group_ l = Some g ->
               length (w_groups w) <= g < length (w_groups w')) /\
    (forall e, executor_ l = Some e ->
               length (w_executors w) <= e < length (w_executors w')) /\
    (forall t, dedicated_listener_thread_ l = Some t ->
               length (w_threads w) <= t < length (w_threads w')).
Proof.
  intros B BA nb nl np nt spin q sq o so w w' l Hctor.
  unfold TransformListener_ctor in Hctor.
  destruct spin.
  - destruct (init_dedicated_returned_inv _ _ _ _ _ _ _ _ _ _ _ _ _ Hctor)
      as (Htf & Hst & Hth).
    rewrite (init_dedicated_returns _ _ _ _ _ _ _ _ _ _ w Htf Hst Hth) in Hctor.
    injection Hctor as <- <-. cbn. rewrite !length_app. cbn.
    split; [reflexivity |]. split; [reflexivity |]. split; [reflexivity |].
    split; [reflexivity |].
    split; [split; [reflexivity | eexists; reflexivity] |].
    split; [split; [reflexivity | eexists; reflexivity] |].
    split; [split; [reflexivity | eexists; reflexivity] |].
    split.
    { intros s [Hs | Hs]; injection Hs as <-; lia. }
    split; [eexists; reflexivity |]. split; [eexists; reflexivity |].
    split; [intros g Hg; injection Hg as <-; lia |].
    split; [intros e He; injection He as <-; lia |].
    intros t Ht; injection Ht as <-; lia.
  - destruct (init_external_returned_inv _ _ _ _ _ _ _ _ _ _ _ _ _ Hctor)
      as (_ & _ & -> & _ & Hsubs & _).
    cbn. rewrite Hsubs, length_app. cbn.
    split; [reflexivity |]. split; [reflexivity |]. split; [reflexivity |].
    split; [reflexivity |].
    split; [split; [intros [g Hg]; discriminate | discriminate] |].
    split; [split; [intros [g Hg]; discriminate | discriminate] |].
    split; [split; [intros [g Hg]; discriminate | discriminate] |].
    split.
    { intros s [Hs | Hs]; injection Hs as <-; lia. }
    split; [eexists; reflexivity |]. split; [eexists; reflexivity |].
    split; [discriminate |]. split; discriminate.
Qed.

Lemma constructed_listener_members_witness :
  TransformListener_ctor (B := BufferCore) 0 0 0 0 true
    Scenario.qos Scenario.static_qos
    detail.get_default_transform_listener_sub_options
    detail.get_default_transform_listener_static_sub_options Scenario.w0
  = Returned Scenario.l_dedicated Scenario.w_dedicated /\
  spin_thread_ Scenario.l_dedicated = true /\
  is_Some (dedicated_listener_thread_ Scenario.l_dedicated) /\
  optional_default_node_ Scenario.l_dedicated = None.
Proof.
  assert (Hctor :
    TransformListener_ctor (B := BufferCore) 0 0 0 0 true
      Scenario.qos Scenario.static_qos
      detail.get_default_transform_listener_sub_options
      detail.get_default_transform_listener_static_sub_options Scenario.w0
    = Returned Scenario.l_dedicated Scenario.w_dedicated) by run.
  split; [exact Hctor |].
  destruct (constructed_listener_members
              BufferCore BufferCore_adapter 0 0 0 0 true
              Scenario.qos Scenario.static_qos
              detail.get_default_transform_listener_sub_options
              detail.get_default_transform_listener_static_sub_options
              _ _ _ Hctor)
    as (Hspin & _ & _ & Hnode & _ & _ & Hthread & _).
  split; [exact Hspin |].
  split; [apply Hthread; exact Hspin | exact Hnode].
Defined.

(** X8.  In external mode the constructor never touches the buffer, the
    executors or the threads, whether it returns or throws, and it never
    throws for want of a thread.  When "/tf" cannot be bound it throws
    before anything has been made: the state is exactly as it was, and
    "/tf_static" has not been tried. *)
Theorem external_mode_failure_leaves_buffer_and_threads :
  forall (B : Type) (BA : BufferAdapter B)
         (node_base node_logging node_parameters node_topics : NodeHandle)
         (qos static_qos : QoS) (options static_options : SubscriptionOptions)
         (w : World B),
    let out :=
      TransformListener_ctor
        node_base node_logging node_parameters node_topics
        false qos static_qos options static_options w in
    w_buffer (world_of out) = w_buffer w /\
    w_executors (world_of out) = w_executors w /\
    w_threads (world_of out) = w_threads w /\
    exception_of out <> Some system_error /\
    (if bind_fails (w_faults w) "/tf"
     then out = Thrown (RCLError "/tf") w
     else exception_of out <> Some (RCLError "/tf")).
Proof.
  intros B BA nb nl np nt q sq o so w.
  unfold TransformListener_ctor, init, bind, create_subscription, ret, log,
    set_groups, set_subscriptions.
  cbn.
  change ("" +:+ "/tf") with "/tf".
  change ("" +:+ "/tf_static") with "/tf_static".
  destruct (bind_fails (w_faults w) "/tf") eqn:Htf.
  { cbn. repeat split. discriminate. }
  destruct (w_groups w !! default 0 (callback_group o)) as [cg |].
  2: { cbn. repeat split; discriminate. }
  cbn.
  destruct (bind_fails (w_faults w) "/tf_static") eqn:Hst.
  { cbn. repeat split; discriminate. }
  match goal with
  | |- context [match ?x with Some _ => _ | None => _ end] =>
      destruct x as [cg' |]
  end; cbn; repeat split; discriminate.
Qed.
